(** * Session and token lifecycle of the LMS backend

    A shallow embedding of [server.js] and [firebase.js]: the JWT helpers,
    the register / login / refresh handlers, the stats handler with its
    pagination loop, the dashboard route behind the auth middleware, and the
    start-up sequence.  The handlers of the three revisions of the server
    (server.js and the two later revisions) are textually the same for login,
    refresh, dashboard and the body of stats; the last revision puts the auth
    middleware in front of stats.

    Third-party packages are collaborators: [jsonwebtoken], [bcryptjs],
    Firestore and the Firebase user directory are modelled by their interface,
    with the cryptographic primitives left abstract. *)

From Stdlib Require Import String Ascii List ZArith Lia Bool.
Import ListNotations.

Local Open Scope string_scope.
Local Open Scope Z_scope.

(** ** JavaScript truthiness of the values the code tests *)

Module Js.

(** [!s] is true for the empty string only. *)
Definition truthy (s : string) : bool := negb (String.eqb s "").

(** A property that may be [undefined]. *)
Definition truthy_opt (o : option string) : bool :=
  match o with
  | Some s => truthy s
  | None => false
  end.

End Js.

(** ** Results of calls that may throw or reject *)

Inductive outcome (A : Type) :=
| Returns (a : A)
| Throws (msg : string).

Arguments Returns {A} a.
Arguments Throws {A} msg.

(** ** process.env *)

Record process_env := {
  FIREBASE_SERVICE_ACCOUNT : option string;
  JWT_SECRET : option string;
  PORT : option string
}.

(** ** jsonwebtoken

    A compact JWS is seen through its decoding: a string either decodes to a
    header, a set of claims and a signature, or it does not.  The claims are
    the ones this server writes ([email], [iat], [exp]); [exp] may be missing
    in a token minted elsewhere.  The MAC over header and claims is a
    parameter. *)

Module Jwt.

Record payload := { email : option string }.

Record claims := {
  sub_email : option string;
  iat : Z;
  exp : option Z
}.

Record jws := {
  alg : string;
  body : claims;
  signature : string
}.

Inductive token :=
| Opaque (raw : string)
| Compact (j : jws).

(** The string is empty: what [!token] tests. *)
Definition is_empty (t : token) : bool :=
  match t with
  | Opaque raw => negb (Js.truthy raw)
  | Compact _ => false
  end.

Inductive verify_error :=
| TokenExpiredError
| JsonWebTokenError.

Inductive verified :=
| Decoded (c : claims)
| Failed (e : verify_error).

(** HMAC algorithms accepted by default for a string secret. *)
Definition hs_supported : list string := ["HS256"; "HS384"; "HS512"].

Definition alg_supported (a : string) : bool :=
  existsb (String.eqb a) hs_supported.

(** Seconds since the epoch for a millisecond clock: [Math.floor(Date.now() / 1000)]. *)
Definition clockTimestamp (now : Z) : Z := now / 1000.

Section Mac.

Variable hmac : string -> string -> claims -> string.

(** The claims [jwt.sign] writes: the payload, the issue time and the expiry. *)
Definition issued_claims (p : payload) (expiresIn now : Z) : claims :=
  let timestamp := clockTimestamp now in
  {| sub_email := email p;
     iat := timestamp;
     exp := Some (timestamp + expiresIn) |}.

(** The token signed under [key] with the default algorithm HS256. *)
Definition issued (p : payload) (key : string) (expiresIn now : Z) : token :=
  let c := issued_claims p expiresIn now in
  Compact {| alg := "HS256"; body := c; signature := hmac "HS256" key c |}.

(** [jwt.sign(payload, secretOrPrivateKey, { expiresIn })], [expiresIn] in
    seconds.  It throws when it is given no key. *)
Definition sign (p : payload) (secretOrPrivateKey : option string)
    (expiresIn : Z) (now : Z) : outcome token :=
  match secretOrPrivateKey with
  | Some key =>
      if Js.truthy key then Returns (issued p key expiresIn now)
      else Throws "secretOrPrivateKey must have a value"
  | None => Throws "secretOrPrivateKey must have a value"
  end.

(** The signature of [j] is the MAC of its header and claims under [key]. *)
Definition signature_ok (key : string) (j : jws) : bool :=
  alg_supported (alg j) && String.eqb (signature j) (hmac (alg j) key (body j)).

Definition expired (c : claims) (now : Z) : bool :=
  match exp c with
  | Some e => e <=? clockTimestamp now
  | None => false
  end.

(** [jwt.verify(token, secretOrPublicKey, callback)]: the error or the
    decoded payload handed to the callback.  The signature is checked before
    the expiry. *)
Definition verify (t : token) (secretOrPublicKey : option string) (now : Z)
    : verified :=
  match t with
  | Opaque _ => Failed JsonWebTokenError
  | Compact j =>
      match secretOrPublicKey with
      | Some key =>
          if negb (Js.truthy key) then Failed JsonWebTokenError
          else if negb (signature_ok key j) then Failed JsonWebTokenError
          else if expired (body j) now then Failed TokenExpiredError
          else Decoded (body j)
      | None => Failed JsonWebTokenError
      end
  end.

(** The token carries a valid signature under the configured secret. *)
Definition validly_signed (secret : option string) (t : token) : Prop :=
  exists key j, secret = Some key /\ key <> "" /\ t = Compact j /\
                signature_ok key j = true.



Definition unparseable (t : token) : Prop := exists raw, t = Opaque raw.

End Mac.

End Jwt.

(** ** HTTP requests and responses *)

Inductive jvalue :=
| JString (s : string)
| JNumber (n : Z)
| JToken (t : Jwt.token).

Inductive res_body :=
| NoBody
| Text (s : string)
| Json (fields : list (string * jvalue)).

Record cookie_options := {
  httpOnly : bool;
  secure : bool;
  sameSite : string;
  maxAge : option Z
}.

Record set_cookie := {
  cookie_name : string;
  cookie_value : Jwt.token;
  cookie_opts : cookie_options
}.

Record response := {
  status : Z;
  sent : res_body;
  cookies_set : list set_cookie
}.

(** [req.body] after [express.json()]: the two properties the handlers
    destructure, either of which may be [undefined]. *)
Record credentials := {
  body_email : option string;
  body_password : option string
}.

(** [authorization] is the bearer token of the authorization header and
    [refreshToken] is [req.cookies.refreshToken]. *)
Record request := {
  req_body : credentials;
  req_headers : list (string * string);
  authorization : option Jwt.token;
  refreshToken : option Jwt.token
}.

(** The response object before the handler touches it. *)
Definition res : response :=
  {| status := 200; sent := NoBody; cookies_set := [] |}.

(** [r.json(fields)]. *)
Definition send_json (fields : list (string * jvalue)) (r : response) : response :=
  {| status := status r; sent := Json fields; cookies_set := cookies_set r |}.

(** [res.status(code).json(fields)], and [res.json(fields)] for code 200. *)
Definition json (code : Z) (fields : list (string * jvalue)) : response :=
  send_json fields {| status := code; sent := NoBody; cookies_set := [] |}.

(** [res.sendStatus(code)]: the status with its reason phrase as text. *)
Definition sendStatus (code : Z) : response :=
  {| status := code;
     sent := Text (if code =? 401 then "Unauthorized"
                   else if code =? 403 then "Forbidden"
                   else "");
     cookies_set := [] |}.

(** [res.cookie(name, value, opts)] on the response being built. *)
Definition cookie (name : string) (value : Jwt.token) (opts : cookie_options)
    (r : response) : response :=
  {| status := status r; sent := sent r;
     cookies_set := cookies_set r ++
                    [{| cookie_name := name; cookie_value := value;
                        cookie_opts := opts |}] |}.

(** A property whose value may be [undefined] is left out by [JSON.stringify]. *)
Definition property (name : string) (v : option string) : list (string * jvalue) :=
  match v with
  | Some s => [(name, JString s)]
  | None => []
  end.


(** ** Firestore: the [users] collection *)

Record user_doc := {
  doc_email : string;
  doc_password : string;
  doc_role : string;
  doc_status : string;
  createdAt : Z
}.

(** *** Document paths

    [collection.doc(path)] takes a path relative to the collection.  The
    client refuses the empty string and a path that contains [//]; it splits
    the path at the slashes into its segments, where a leading or a trailing
    slash is allowed and leaves no segment; and it refuses a path that does
    not end at a document, which below a collection means an even number of
    segments.  One segment is a document of the collection itself, three or
    more a document of a collection below it. *)

Definition slash : ascii := "/"%char.

(** The pieces of a path between its slashes, the empty ones included. *)
Fixpoint pieces (path : string) : list string :=
  match path with
  | EmptyString => [EmptyString]
  | String c rest =>
      if Ascii.eqb c slash then EmptyString :: pieces rest
      else
        match pieces rest with
        | piece :: more => String c piece :: more
        | [] => [String c EmptyString]
        end
  end.

Definition segments (path : string) : list string :=
  filter Js.truthy (pieces path).

(** The segments joined again: the path that names the document. *)
Definition key (path : string) : string := String.concat "/" (segments path).

Fixpoint double_slash (path : string) : bool :=
  match path with
  | String c (String c' _ as rest) =>
      (Ascii.eqb c slash && Ascii.eqb c' slash) || double_slash rest
  | _ => false
  end.

(** The paths [collection.doc] accepts. *)
Definition is_document_path (path : string) : bool :=
  Js.truthy path && negb (double_slash path) && Nat.odd (length (segments path)).

(** The document belongs to the collection itself. *)
Definition in_collection (path : string) : bool :=
  Nat.eqb (length (segments path)) 1.



(** The documents at and below the collection, by the path that names
    them, in path order; [reachable] is whether calls to the database
    succeed. *)
Record firestore := {
  users : list (string * user_doc);
  reachable : bool
}.

(** [.where("email", "==", e)] on the collection: its own documents, not
    those of the collections below it. *)
Definition where_email (e : string) (docs : list (string * user_doc))
    : list (string * user_doc) :=
  filter (fun d => in_collection (fst d) && String.eqb (doc_email (snd d)) e) docs.

(** Create or overwrite the document named [k]. *)
Fixpoint insert_doc (k : string) (d : user_doc) (docs : list (string * user_doc))
    : list (string * user_doc) :=
  match docs with
  | [] => [(k, d)]
  | (k', d') :: rest =>
      match String.compare k k' with
      | Eq => (k, d) :: rest
      | Lt => (k, d) :: docs
      | Gt => (k', d') :: insert_doc k d rest
      end
  end.

(** [.doc(path).set(d)]: create or overwrite the document the path names. *)
Definition set_doc (path : string) (d : user_doc) (docs : list (string * user_doc))
    : list (string * user_doc) :=
  insert_doc (key path) d docs.

(** ** Awaited calls: state of the database and rejection *)

Definition async (A : Type) : Type := firestore -> outcome A * firestore.

Definition ret {A} (a : A) : async A := fun db => (Returns a, db).

Definition reject {A} (msg : string) : async A := fun db => (Throws msg, db).

Definition bind {A B} (m : async A) (k : A -> async B) : async B :=
  fun db =>
    match m db with
    | (Returns a, db') => k a db'
    | (Throws msg, db') => (Throws msg, db')
    end.

(** [try { m } catch (err) { handler }]. *)
Definition try_catch {A} (m : async A) (handler : string -> async A) : async A :=
  fun db =>
    match m db with
    | (Returns a, db') => (Returns a, db')
    | (Throws msg, db') => handler msg db'
    end.

(** A synchronous call that may throw, inside an async function. *)
Definition throwing {A} (o : outcome A) : async A := fun db => (o, db).

Declare Scope async_scope.
Delimit Scope async_scope with async.
Notation "x <- m ;; k" := (bind m (fun x => k))
  (at level 61, m at next level, right associativity) : async_scope.

(** [await db.collection("users").where("email", "==", email).get()];
    an [undefined] filter value is refused by the client library. *)
Definition query_email (email : option string) : async (list (string * user_doc)) :=
  fun db =>
    match email with
    | None => (Throws "Cannot use undefined as a Firestore value", db)
    | Some e =>
        if reachable db then (Returns (where_email e (users db)), db)
        else (Throws "UNAVAILABLE", db)
    end.

(** [db.collection("users").doc(id)]: the id has to be a string, and a
    path that ends at a document. *)
Definition doc (id : option string) : async string :=
  match id with
  | Some path =>
      if is_document_path path then ret path
      else reject "documentPath must point to a document"
  | None => reject "documentPath is not a valid resource path"
  end.

(** [await ref.set(d)] on the document [id]. *)
Definition set (id : string) (d : user_doc) : async unit :=
  fun db =>
    if reachable db then
      (Returns tt, {| users := set_doc id d (users db); reachable := reachable db |})
    else (Throws "UNAVAILABLE", db).

(** ** Firebase user directory *)

Record user_record := {
  emailVerified : bool;
  creationTime : Z
}.

Record list_users_result := {
  page_users : list user_record;
  pageToken : option string
}.

(** [admin.auth().listUsers(maxResults, pageToken)]; it may reject. *)
Definition directory := Z -> option string -> outcome list_users_result.

(** ** Decision of a middleware *)

Inductive gate :=
| Reject (r : response)
| Next (user : Jwt.claims).

(** ** The server *)

Section Server.

Local Open Scope async_scope.

(** HMAC of [jsonwebtoken], by algorithm name, key and signed content. *)
Variable hmac : string -> string -> Jwt.claims -> string.

(** [bcrypt.hash(s, rounds)] with the salt it draws, and [bcrypt.compare]. *)
Variable bcrypt_hash : string -> Z -> string -> string.
Variable bcrypt_compare : string -> string -> bool.

(** Whether the service-account text parses and is accepted as a credential. *)
Variable service_account_ok : string -> bool.

(** *** JWT helpers *)

Definition fifteen_minutes : Z := 15 * 60.
Definition seven_days : Z := 7 * 24 * 60 * 60.

Definition generateAccessToken (env : process_env) (now : Z) (user : Jwt.payload)
    : outcome Jwt.token :=
  Jwt.sign hmac user (JWT_SECRET env) fifteen_minutes now.

Definition generateRefreshToken (env : process_env) (now : Z) (user : Jwt.payload)
    : outcome Jwt.token :=
  Jwt.sign hmac user (JWT_SECRET env) seven_days now.

(** What the spec calls [verifyToken]: [jwt.verify] under the process secret. *)
Definition verifyToken (env : process_env) (now : Z) (t : Jwt.token) : Jwt.verified :=
  Jwt.verify hmac t (JWT_SECRET env) now.

(** *** bcryptjs, awaited; a non-string argument is refused *)

Definition hash (s : option string) (rounds : Z) (salt : string) : async string :=
  match s with
  | Some plain => ret (bcrypt_hash plain rounds salt)
  | None => reject "Illegal arguments"
  end.

Definition compare (s : option string) (hashed : string) : async bool :=
  match s with
  | Some plain => ret (bcrypt_compare plain hashed)
  | None => reject "Illegal arguments"
  end.

(** *** POST /api/register *)

Definition register (now : Z) (salt : string) (req : request) : async response :=
  try_catch
    (let email := body_email (req_body req) in
     let password := body_password (req_body req) in
     snapshot <- query_email email ;;
     match snapshot with
     | _ :: _ => ret (json 400 [("msg", JString "User exists")])
     | [] =>
         hashed <- hash password 10 salt ;;
         id <- doc email ;;
         _ <- set id {| doc_email := id;
                        doc_password := hashed;
                        doc_role := "client";
                        doc_status := "active";
                        createdAt := now |} ;;
         ret (json 200 [("msg", JString "Registered successfully")])
     end)
    (fun _ => ret (json 500 [("msg", JString "Register failed")])).

(** *** POST /api/login *)

Definition refresh_cookie_options : cookie_options :=
  {| httpOnly := true;
     secure := true;
     sameSite := "none";
     maxAge := Some (7 * 24 * 60 * 60 * 1000) |}.

Definition login (env : process_env) (now : Z) (req : request) : async response :=
  try_catch
    (let email := body_email (req_body req) in
     let password := body_password (req_body req) in
     snapshot <- query_email email ;;
     match snapshot with
     | [] => ret (json 400 [("msg", JString "Invalid credentials")])
     | (_, user) :: _ =>
         matches <- compare password (doc_password user) ;;
         if negb matches then
           ret (json 400 [("msg", JString "Invalid credentials")])
         else
           let payload := {| Jwt.email := email |} in
           accessToken <- throwing (generateAccessToken env now payload) ;;
           refreshToken <- throwing (generateRefreshToken env now payload) ;;
           let res := cookie "refreshToken" refreshToken refresh_cookie_options res in
           ret (send_json [("accessToken", JToken accessToken)] res)
     end)
    (fun _ => ret (json 500 [("msg", JString "Login failed")])).

(** *** POST /api/refresh

    The handler is synchronous and has no try/catch: a throw inside the
    callback of [jwt.verify] leaves the handler. *)

Definition refresh (env : process_env) (now : Z) (req : request) : outcome response :=
  match refreshToken req with
  | None => Returns (sendStatus 401)
  | Some token =>
      if Jwt.is_empty token then Returns (sendStatus 401)
      else
        match Jwt.verify hmac token (JWT_SECRET env) now with
        | Jwt.Failed _ => Returns (sendStatus 403)
        | Jwt.Decoded user =>
            match generateAccessToken env now {| Jwt.email := Jwt.sub_email user |} with
            | Returns accessToken => Returns (json 200 [("accessToken", JToken accessToken)])
            | Throws msg => Throws msg
            end
        end
  end.

(** *** GET /api/stats *)

(** The body of [result.users.forEach]. *)
Definition tally (counts : Z * Z) (user : user_record) : Z * Z :=
  let (total, verified) := counts in
  (total + 1, if emailVerified user then verified + 1 else verified).

(** The do-while loop over the pages; [fuel] bounds the number of calls to
    [listUsers], [None] is a loop that has not finished within it. *)
Fixpoint count_users (listUsers : directory) (fuel : nat)
    (nextPageToken : option string) (total verified : Z)
    : option (outcome (Z * Z)) :=
  match fuel with
  | O => None
  | S fuel' =>
      match listUsers 1000 nextPageToken with
      | Throws msg => Some (Throws msg)
      | Returns result =>
          let (total', verified') :=
            fold_left tally (page_users result) (total, verified) in
          if Js.truthy_opt (pageToken result)
          then count_users listUsers fuel' (pageToken result) total' verified'
          else Some (Returns (total', verified'))
      end
  end.

Definition stats_body (total verified : Z) : list (string * jvalue) :=
  [("totalUsers", JNumber total);
   ("verifiedUsers", JNumber verified);
   ("unverifiedUsers", JNumber (total - verified));
   ("systemStatus", JString "Active");
   ("security", JString "Protected")].

Definition stats (listUsers : directory) (fuel : nat) : option response :=
  match count_users listUsers fuel None 0 0 with
  | None => None
  | Some (Returns (total, verified)) => Some (json 200 (stats_body total verified))
  | Some (Throws _) => Some (json 500 [("msg", JString "Failed to fetch stats")])
  end.

(** *** Session middleware *)

(** Modelled from the spec: [middleware/auth.js] is required by the server but
    is not among the sources.  Extract the bearer token (absent: 401), verify
    it with the token service (Malformed or Expired: 403), otherwise attach
    the decoded identity and pass control on. *)
Definition auth (env : process_env) (now : Z) (req : request) : gate :=
  match authorization req with
  | None => Reject {| status := 401; sent := NoBody; cookies_set := [] |}
  | Some token =>
      match verifyToken env now token with
      | Jwt.Failed _ => Reject {| status := 403; sent := NoBody; cookies_set := [] |}
      | Jwt.Decoded user => Next user
      end
  end.

(** [app.get(path, auth, handler)]. *)
Definition protected {A} (env : process_env) (now : Z)
    (handler : Jwt.claims -> A) (sendResponse : response -> A) (req : request) : A :=
  match auth env now req with
  | Reject r => sendResponse r
  | Next user => handler user
  end.

(** *** GET /api/dashboard *)

Definition dashboard_handler (user : Jwt.claims) : response :=
  json 200 (("msg", JString "Welcome to dashboard")
            :: property "user" (Jwt.sub_email user)).

Definition dashboard (env : process_env) (now : Z) (req : request) : response :=
  protected env now dashboard_handler (fun r => r) req.

(** GET /api/stats of the last revision, behind the middleware. *)
Definition stats_protected (env : process_env) (now : Z)
    (listUsers : directory) (fuel : nat) (req : request) : option response :=
  protected env now (fun _ => stats listUsers fuel) Some req.

(** *** Start-up: [require("./firebase")], then [app.listen] *)

Definition firebase (env : process_env) : outcome unit :=
  if negb (Js.truthy_opt (FIREBASE_SERVICE_ACCOUNT env))
  then Throws "FIREBASE_SERVICE_ACCOUNT is missing"
  else
    match FIREBASE_SERVICE_ACCOUNT env with
    | Some text =>
        if service_account_ok text then Returns tt
        else Throws "invalid service account"
    | None => Throws "FIREBASE_SERVICE_ACCOUNT is missing"
    end.

Inductive process :=
| Exited (msg : string)
| Listening (port : string).

Definition server (env : process_env) : process :=
  match firebase env with
  | Throws msg => Exited msg
  | Returns _ =>
      Listening (if Js.truthy_opt (PORT env)
                 then match PORT env with Some p => p | None => "5000" end
                 else "5000")
  end.

End Server.

(** ** Reading a response *)

Fixpoint lookup_field (name : string) (fields : list (string * jvalue)) : option jvalue :=
  match fields with
  | [] => None
  | (k, v) :: rest => if String.eqb k name then Some v else lookup_field name rest
  end.

(** The [accessToken] property of a JSON body. *)
Definition accessToken_of (r : response) : option Jwt.token :=
  match sent r with
  | Json fields =>
      match lookup_field "accessToken" fields with
      | Some (JToken t) => Some t
      | _ => None
      end
  | _ => None
  end.

Definition number_of (name : string) (r : response) : option Z :=
  match sent r with
  | Json fields =>
      match lookup_field name fields with
      | Some (JNumber n) => Some n
      | _ => None
      end
  | _ => None
  end.

(** ** A directory that answers in finitely many pages

    [serves listUsers cursor pages]: starting from [cursor], the directory
    hands out exactly [pages], the last of which carries no further cursor. *)

Inductive serves (listUsers : directory) : option string -> list list_users_result -> Prop :=
| serves_last cursor page :
    listUsers 1000 cursor = Returns page ->
    Js.truthy_opt (pageToken page) = false ->
    serves listUsers cursor [page]
| serves_more cursor page pages :
    listUsers 1000 cursor = Returns page ->
    Js.truthy_opt (pageToken page) = true ->
    serves listUsers (pageToken page) pages ->
    serves listUsers cursor (page :: pages).

Definition all_users (pages : list list_users_result) : list user_record :=
  concat (map page_users pages).

Definition count_verified (l : list user_record) : Z :=
  Z.of_nat (length (filter emailVerified l)).

(** ** Concrete collaborators and inputs for worked instances *)

Module Demo.

Definition hmac (a key : string) (c : Jwt.claims) : string := key ++ "/" ++ a.

Definition bcrypt_hash (plain : string) (rounds : Z) (salt : string) : string :=
  salt ++ "$" ++ plain.

Definition bcrypt_compare (plain hashed : string) : bool :=
  String.eqb hashed ("salt$" ++ plain).

Definition env : process_env :=
  {| FIREBASE_SERVICE_ACCOUNT := Some "{}";
     JWT_SECRET := Some "s3cret";
     PORT := None |}.

(** An access token for alice minted in the last second before
    [alice_refresh], defined below, expires. *)
Definition late_access : Jwt.token :=
  Jwt.issued hmac {| Jwt.email := Some "a@x.com" |} "s3cret" (15 * 60) 604799000.

(** The same process without [JWT_SECRET]. *)
Definition env_no_secret : process_env :=
  {| FIREBASE_SERVICE_ACCOUNT := Some "{}";
     JWT_SECRET := None;
     PORT := None |}.

Definition alice : user_doc :=
  {| doc_email := "a@x.com"; doc_password := "salt$pw1";
     doc_role := "client"; doc_status := "active"; createdAt := 0 |}.

Definition db : firestore :=
  {| users := [("a@x.com", alice)]; reachable := true |}.

Definition empty_db : firestore := {| users := []; reachable := true |}.

Definition post (email password : string) : request :=
  {| req_body := {| body_email := Some email; body_password := Some password |};
     req_headers := [];
     authorization := None;
     refreshToken := None |}.

(** A request carrying a refresh cookie and an unrelated identity in its body. *)
Definition with_cookie (t : Jwt.token) (claimed : string) : request :=
  {| req_body := {| body_email := Some claimed; body_password := None |};
     req_headers := [("x-user", claimed)];
     authorization := None;
     refreshToken := Some t |}.

Definition with_bearer (t : option Jwt.token) : request :=
  {| req_body := {| body_email := None; body_password := None |};
     req_headers := [];
     authorization := t;
     refreshToken := None |}.

(** A refresh token for alice minted at time 0 under the demo secret. *)
Definition alice_refresh : Jwt.token :=
  Jwt.issued hmac {| Jwt.email := Some "a@x.com" |} "s3cret" (7 * 24 * 60 * 60) 0.

Definition alice_access : Jwt.token :=
  Jwt.issued hmac {| Jwt.email := Some "a@x.com" |} "s3cret" (15 * 60) 0.

(** The same claims signed under another key. *)
Definition forged : Jwt.token :=
  Jwt.issued hmac {| Jwt.email := Some "a@x.com" |} "guess" (7 * 24 * 60 * 60) 0.

(** A directory of three users served in two pages. *)
Definition listUsers : directory :=
  fun _ cursor =>
    match cursor with
    | None =>
        Returns {| page_users := [ {| emailVerified := true; creationTime := 1 |};
                                   {| emailVerified := false; creationTime := 2 |} ];
                   pageToken := Some "p2" |}
    | Some _ =>
        Returns {| page_users := [ {| emailVerified := true; creationTime := 3 |} ];
                   pageToken := None |}
    end.

End Demo.

(** ** The remaining routes

    Answers that the response record above does not describe: a JSON body
    with a boolean, and a JSON array of chart points. *)

Inductive answer :=
| Replied (r : response)
| Success
| Chart (data : list (string * Z)).

(** *** POST /api/logout *)



(** *** Firestore: one document by id *)

(** The document named [k], if there is one. *)
Fixpoint lookup_doc (k : string) (docs : list (string * user_doc)) : option user_doc :=
  match docs with
  | [] => None
  | (k', d) :: rest => if String.eqb k' k then Some d else lookup_doc k rest
  end.

(** The document stored under [id], for an [id] that is a document path
    written without a leading, trailing or doubled slash. *)
Definition get_doc (id : string) (docs : list (string * user_doc)) : option user_doc :=
  if is_document_path id && String.eqb (key id) id then lookup_doc id docs else None.

(** Remove the document named [k]. *)
Definition delete_doc (k : string) (docs : list (string * user_doc))
    : list (string * user_doc) :=
  filter (fun d => negb (String.eqb (fst d) k)) docs.

(** Every document is stored under its own email, as register writes them. *)
Definition keyed_by_email (docs : list (string * user_doc)) : Prop :=
  Forall (fun d => doc_email (snd d) = fst d) docs.

(** *** Firebase accounts, for deletion *)

Record auth_user := {
  uid : string;
  auth_email : string;
  auth_record : user_record
}.

Record firebase_auth := {
  accounts : list auth_user;
  auth_reachable : bool
}.

(** [await admin.auth().getUserByEmail(email)]; rejects when there is none. *)
Definition getUserByEmail (email : string) (a : firebase_auth) : outcome auth_user :=
  if auth_reachable a then
    match find (fun u => String.eqb (auth_email u) email) (accounts a) with
    | Some u => Returns u
    | None => Throws "auth/user-not-found"
    end
  else Throws "UNAVAILABLE".

(** [await admin.auth().deleteUser(uid)]. *)
Definition deleteUser (id : string) (a : firebase_auth) : outcome unit * firebase_auth :=
  if auth_reachable a then
    if existsb (fun u => String.eqb (uid u) id) (accounts a) then
      (Returns tt,
       {| accounts := filter (fun u => negb (String.eqb (uid u) id)) (accounts a);
          auth_reachable := auth_reachable a |})
    else (Throws "auth/user-not-found", a)
  else (Throws "UNAVAILABLE", a).

(** *** DELETE /api/users/:id

    [docRef = db.collection("users").doc(id)] throws for an [id] that is no
    document path, into the outer catch.  The inner try swallows every
    failure of the account deletion; the outer one turns a failure of the
    store into 500.  The store is read first and written last, with the
    account deletion in between, so the last call is given its own outcome:
    [deleted] is whether [await docRef.delete()] succeeds. *)
Definition delete_user (id : string) (deleted : bool) (db : firestore) (a : firebase_auth)
    : answer * firestore * firebase_auth :=
  if is_document_path id && reachable db then
    match lookup_doc (key id) (users db) with
    | None => (Replied (json 404 [("msg", JString "User not found")]), db, a)
    | Some data =>
        let a' :=
          match getUserByEmail (doc_email data) a with
          | Returns user => snd (deleteUser (uid user) a)
          | Throws _ => a
          end in
        if deleted then
          (Success,
           {| users := delete_doc (key id) (users db); reachable := reachable db |},
           a')
        else (Replied (json 500 [("msg", JString "Delete failed")]), db, a')
    end
  else (Replied (json 500 [("msg", JString "Delete failed")]), db, a).

(** *** GET /api/user-stats *)

(** [req.query]: the four parameters the handler destructures. *)
Record query := {
  q_range : option string;
  q_from : option string;
  q_to : option string;
  q_type : option string
}.

(** [x === "literal"] for a parameter that may be [undefined]. *)
Definition equals (x : option string) (literal : string) : bool :=
  match x with
  | Some s => String.eqb s literal
  | None => false
  end.

(** The loop that loads every principal into [users]. *)
Fixpoint load_users (listUsers : directory) (fuel : nat)
    (nextPageToken : option string) (users : list user_record)
    : option (outcome (list user_record)) :=
  match fuel with
  | O => None
  | S fuel' =>
      match listUsers 1000 nextPageToken with
      | Throws msg => Some (Throws msg)
      | Returns result =>
          let users' := (users ++ page_users result)%list in
          if Js.truthy_opt (pageToken result)
          then load_users listUsers fuel' (pageToken result) users'
          else Some (Returns users')
      end
  end.

(** [i = n - 1, ..., 0], each with the number of the [new Date()] that opens
    its iteration (the first [new Date()] of the request is [now]). *)
Definition iterations (n : nat) : list (nat * Z) :=
  combine (seq 1 n) (map Z.of_nat (rev (seq 0 n))).

(** [list.filter(p).length]. *)
Definition count (p : user_record -> bool) (l : list user_record) : Z :=
  Z.of_nat (length (filter p l)).

Section UserStats.

(** Dates are time values; the calendar of the local time zone and the
    formatting are parameters. *)
Variable getMonth getFullYear getDate getHours : Z -> Z.
Variable setMonth setDate setHours : Z -> Z -> Z.
(** [d.setHours(23, 59, 59, 999)]. *)
Variable endOfDay : Z -> Z.
(** [new Date(text)], [None] for an invalid date. *)
Variable parseDate : string -> option Z.
Variable toDateString : Z -> string.
(** The three labels: short month, short month with day, short weekday. *)
Variable monthShort monthDay weekdayShort : Z -> string.
(** A number converted to a string by [+]. *)
Variable numberToString : Z -> string.

(** [new Date()], by the number of the call within the request. *)
Variable clock : nat -> Z.

(** [u.createdAt >= fromDate && u.createdAt <= toDate]; a comparison with an
    invalid date is false. *)
Definition in_range (fromDate toDate : option Z) (u : user_record) : bool :=
  match fromDate, toDate with
  | Some f, Some t => (f <=? creationTime u) && (creationTime u <=? t)
  | _, _ => false
  end.

Definition date_filter (q : query) (users : list user_record) : list user_record :=
  if Js.truthy_opt (q_from q) && Js.truthy_opt (q_to q) then
    match q_from q, q_to q with
    | Some from, Some to =>
        let fromDate := parseDate from in
        let toDate := option_map endOfDay (parseDate to) in
        filter (in_range fromDate toDate) users
    | _, _ => users
    end
  else users.

Definition type_filter (q : query) (users : list user_record) : list user_record :=
  let users := if equals (q_type q) "verified" then filter emailVerified users else users in
  if equals (q_type q) "unverified"
  then filter (fun u => negb (emailVerified u)) users
  else users.

Definition same_month (d : Z) (u : user_record) : bool :=
  (getMonth (creationTime u) =? getMonth d) &&
  (getFullYear (creationTime u) =? getFullYear d).

Definition same_day (d : Z) (u : user_record) : bool :=
  String.eqb (toDateString (creationTime u)) (toDateString d).

Definition same_hour (d : Z) (u : user_record) : bool :=
  (getHours (creationTime u) =? getHours d) && same_day d u.

Definition months (now : Z) (users : list user_record) : list (string * Z) :=
  map (fun '(k, i) =>
         let d := setMonth (clock k) (getMonth now - i) in
         (monthShort d, count (same_month d) users))
      (iterations 12).

Definition days (n : nat) (label : Z -> string) (now : Z) (users : list user_record)
    : list (string * Z) :=
  map (fun '(k, i) =>
         let d := setDate (clock k) (getDate now - i) in
         (label d, count (same_day d) users))
      (iterations n).

Definition hours (now : Z) (users : list user_record) : list (string * Z) :=
  map (fun '(k, i) =>
         let d := setHours (clock k) (getHours now - i) in
         (numberToString (getHours d) ++ ":00", count (same_hour d) users))
      (iterations 24).

(** The chart for the users that passed the filters. *)
Definition chart (q : query) (filteredUsers : list user_record) : list (string * Z) :=
  let now := clock 0 in
  let data := [] in
  let data := if equals (q_range q) "12m" then (data ++ months now filteredUsers)%list else data in
  let data := if equals (q_range q) "30d" then (data ++ days 30 monthDay now filteredUsers)%list else data in
  let data := if equals (q_range q) "7d" then (data ++ days 7 weekdayShort now filteredUsers)%list else data in
  if equals (q_range q) "24h" then (data ++ hours now filteredUsers)%list else data.

(** The handler of the second revision, after the middleware. *)
Definition user_stats_handler (listUsers : directory) (fuel : nat) (q : query)
    : option answer :=
  match load_users listUsers fuel None [] with
  | None => None
  | Some (Throws _) => Some (Replied (json 500 [("msg", JString "Failed to load stats")]))
  | Some (Returns users) =>
      let filteredUsers := type_filter q (date_filter q users) in
      Some (Chart (chart q filteredUsers))
  end.

(** The handler of the last revision: twelve months, no filters. *)
Definition user_stats_monthly_handler (listUsers : directory) (fuel : nat)
    : option answer :=
  match load_users listUsers fuel None [] with
  | None => None
  | Some (Throws _) => Some (Replied (json 500 [("msg", JString "Failed to load stats")]))
  | Some (Returns users) => Some (Chart (months (clock 0) users))
  end.

End UserStats.

(** ** A directory that rejects one of its calls

    [rejects_at listUsers cursor n]: starting from [cursor], the first
    [n - 1] calls return pages that carry a further cursor and the call
    number [n] rejects. *)

Inductive rejects_at (listUsers : directory) : option string -> nat -> Prop :=
| rejects_now cursor msg :
    listUsers 1000 cursor = Throws msg ->
    rejects_at listUsers cursor 1
| rejects_later cursor page n :
    listUsers 1000 cursor = Returns page ->
    Js.truthy_opt (pageToken page) = true ->
    rejects_at listUsers (pageToken page) n ->
    rejects_at listUsers cursor (S n).

(** The number of points the chart has for a [range] parameter. *)
Definition points (range : option string) : nat :=
  if equals range "12m" then 12
  else if equals range "30d" then 30
  else if equals range "7d" then 7
  else if equals range "24h" then 24
  else 0.

(** ** More concrete inputs *)

Module Sample.

(** A MAC that depends on the identity and the expiry it covers. *)
Definition hmac (a key : string) (c : Jwt.claims) : string :=
  key ++ "/" ++ a ++ "/" ++
  match Jwt.sub_email c with Some e => e | None => "" end ++ "/" ++
  match Jwt.exp c with Some 900 => "access" | Some _ => "other" | None => "none" end.

Definition auth : firebase_auth :=
  {| accounts :=
       [ {| uid := "u1"; auth_email := "a@x.com";
            auth_record := {| emailVerified := true; creationTime := 1 |} |};
         {| uid := "u2"; auth_email := "b@x.com";
            auth_record := {| emailVerified := false; creationTime := 2 |} |} ];
     auth_reachable := true |}.

Definition bob : user_doc :=
  {| doc_email := "b@x.com"; doc_password := "salt$pw2";
     doc_role := "client"; doc_status := "active"; createdAt := 0 |}.

Definition db : firestore :=
  {| users := [("a@x.com", Demo.alice); ("b@x.com", bob)]; reachable := true |}.

(** A directory whose second call rejects. *)
Definition failing : directory :=
  fun _ cursor =>
    match cursor with
    | None =>
        Returns {| page_users := [ {| emailVerified := true; creationTime := 1 |} ];
                   pageToken := Some "p2" |}
    | Some _ => Throws "UNAVAILABLE"
    end.

Definition pages : list list_users_result :=
  [ {| page_users := [ {| emailVerified := true; creationTime := 1 |};
                       {| emailVerified := false; creationTime := 2 |} ];
       pageToken := Some "p2" |};
    {| page_users := [ {| emailVerified := true; creationTime := 3 |} ];
       pageToken := None |} ].

(** A toy calendar on time values counted in hours, with 30-day months. *)
Definition getHours (t : Z) : Z := t mod 24.
Definition getDate (t : Z) : Z := (t / 24) mod 30 + 1.
Definition getMonth (t : Z) : Z := (t / 720) mod 12.
Definition getFullYear (t : Z) : Z := 1970 + t / 8640.
Definition setHours (t h : Z) : Z := t - getHours t + h.
Definition setDate (t d : Z) : Z := t + 24 * (d - getDate t).
Definition setMonth (t m : Z) : Z := t + 720 * (m - getMonth t).
Definition endOfDay (t : Z) : Z := t - getHours t + 23.
Definition parseDate (text : string) : option Z :=
  if String.eqb text "day0" then Some 0
  else if String.eqb text "day1" then Some 24
  else None.
Definition label (t : Z) : string := "".
Definition clock (k : nat) : Z := 100.

Definition query_of (range type : option string) : query :=
  {| q_range := range; q_from := None; q_to := None; q_type := type |}.

(** The second revision of user-stats on the toy calendar. *)
Definition user_stats : directory -> nat -> query -> option answer :=
  user_stats_handler getMonth getFullYear getDate getHours setMonth setDate
    setHours endOfDay parseDate label label label label label clock.

End Sample.

(** * Properties *)

(** ** Truthiness *)

Lemma truthy_true (s : string) : Js.truthy s = true <-> s <> "".
Proof.
  unfold Js.truthy. rewrite negb_true_iff. split.
  - intros H ->. discriminate.
  - intros H. apply String.eqb_neq. exact H.
Qed.

Lemma truthy_opt_true (o : option string) :
  Js.truthy_opt o = true <-> exists s, o = Some s /\ s <> "".
Proof.
  destruct o as [s|]; simpl.
  - rewrite truthy_true. split.
    + intros H. exists s. auto.
    + intros (s' & E & H). injection E as ->. exact H.
  - split; [discriminate|]. intros (s & E & _). discriminate.
Qed.

(** ** The token service *)

Section TokenService.

Variable hmac : string -> string -> Jwt.claims -> string.

Lemma sign_with_key p key expiresIn now :
  key <> "" ->
  Jwt.sign hmac p (Some key) expiresIn now = Returns (Jwt.issued hmac p key expiresIn now).
Proof.
  intros Hkey. unfold Jwt.sign.
  apply truthy_true in Hkey. rewrite Hkey. reflexivity.
Qed.

Lemma sign_without_key p secret expiresIn now :
  Js.truthy_opt secret = false ->
  Jwt.sign hmac p secret expiresIn now = Throws "secretOrPrivateKey must have a value".
Proof.
  intros H. unfold Jwt.sign. destruct secret as [key|]; [|reflexivity].
  simpl in H. rewrite H. reflexivity.
Qed.

Lemma sign_returns_inv p secret expiresIn now t :
  Jwt.sign hmac p secret expiresIn now = Returns t ->
  exists key, secret = Some key /\ key <> "" /\ t = Jwt.issued hmac p key expiresIn now.
Proof.
  unfold Jwt.sign. destruct secret as [key|]; [|discriminate].
  destruct (Js.truthy key) eqn:E; [|discriminate].
  intros H. injection H as <-. exists key.
  apply truthy_true in E. auto.
Qed.

Lemma issued_signature_ok p key expiresIn now :
  exists j, Jwt.issued hmac p key expiresIn now = Jwt.Compact j /\
            Jwt.signature_ok hmac key j = true /\
            Jwt.body j = Jwt.issued_claims p expiresIn now.
Proof.
  eexists. split; [reflexivity|]. split; [|reflexivity].
  unfold Jwt.signature_ok. simpl. apply String.eqb_refl.
Qed.

(** A token minted at [now] verifies at any [now'] before its expiry. *)
Lemma verify_issued p key expiresIn now now' :
  key <> "" ->
  Jwt.clockTimestamp now' < Jwt.clockTimestamp now + expiresIn ->
  Jwt.verify hmac (Jwt.issued hmac p key expiresIn now) (Some key) now'
  = Jwt.Decoded (Jwt.issued_claims p expiresIn now).
Proof.
  intros Hkey Hwin. unfold Jwt.verify, Jwt.issued.
  apply truthy_true in Hkey. rewrite Hkey. simpl.
  unfold Jwt.signature_ok. simpl. rewrite String.eqb_refl. simpl.
  unfold Jwt.expired. simpl.
  destruct (Z.leb_spec (Jwt.clockTimestamp now + expiresIn) (Jwt.clockTimestamp now'));
    [lia | reflexivity].
Qed.

(** ... and is reported expired from its expiry on. *)
Lemma verify_issued_late p key expiresIn now now' :
  key <> "" ->
  Jwt.clockTimestamp now + expiresIn <= Jwt.clockTimestamp now' ->
  Jwt.verify hmac (Jwt.issued hmac p key expiresIn now) (Some key) now'
  = Jwt.Failed Jwt.TokenExpiredError.
Proof.
  intros Hkey Hlate. unfold Jwt.verify, Jwt.issued.
  apply truthy_true in Hkey. rewrite Hkey. simpl.
  unfold Jwt.signature_ok. simpl. rewrite String.eqb_refl. simpl.
  unfold Jwt.expired. simpl.
  destruct (Z.leb_spec (Jwt.clockTimestamp now + expiresIn) (Jwt.clockTimestamp now'));
    [reflexivity | lia].
Qed.

(** The three ways [jwt.verify] ends, by what the token is. *)
Lemma verify_decoded_iff t secret now c :
  Jwt.verify hmac t secret now = Jwt.Decoded c <->
  exists key j, secret = Some key /\ key <> "" /\ t = Jwt.Compact j /\
                Jwt.signature_ok hmac key j = true /\
                Jwt.expired (Jwt.body j) now = false /\ c = Jwt.body j.
Proof.
  unfold Jwt.verify. split.
  - destruct t as [raw|j]; [discriminate|].
    destruct secret as [key|]; [|discriminate].
    destruct (Js.truthy key) eqn:Ek; simpl; [|discriminate].
    destruct (Jwt.signature_ok hmac key j) eqn:Es; simpl; [|discriminate].
    destruct (Jwt.expired (Jwt.body j) now) eqn:Ee; [discriminate|].
    intros H. injection H as <-. exists key, j.
    apply truthy_true in Ek. auto 10.
  - intros (key & j & -> & Hk & -> & Hs & He & ->).
    apply truthy_true in Hk. rewrite Hk, Hs, He. reflexivity.
Qed.


Lemma verify_malformed_iff t secret now :
  Jwt.verify hmac t secret now = Jwt.Failed Jwt.JsonWebTokenError <->
  Jwt.unparseable t \/ ~ Jwt.validly_signed hmac secret t.
Proof.
  unfold Jwt.verify, Jwt.validly_signed, Jwt.unparseable. split.
  - destruct t as [raw|j]; [intros _; left; eauto|].
    destruct secret as [key|].
    + destruct (Js.truthy key) eqn:Ek; simpl.
      * destruct (Jwt.signature_ok hmac key j) eqn:Es; simpl.
        -- destruct (Jwt.expired (Jwt.body j) now); discriminate.
        -- intros _. right. intros (k & j' & Ek' & _ & Ej & Hs).
           injection Ek' as <-. injection Ej as <-. congruence.
      * intros _. right. intros (k & j' & Ek' & Hk & _).
        injection Ek' as <-. apply truthy_true in Hk. congruence.
    + intros _. right. intros (k & j' & Ek' & _). discriminate.
  - intros [[raw ->] | Hn]; [reflexivity|].
    destruct t as [raw|j]; [reflexivity|].
    destruct secret as [key|]; [|reflexivity].
    destruct (Js.truthy key) eqn:Ek; simpl; [|reflexivity].
    destruct (Jwt.signature_ok hmac key j) eqn:Es; simpl; [|reflexivity].
    exfalso. apply Hn. exists key, j. apply truthy_true in Ek. auto.
Qed.

End TokenService.

(** ** Issuing and verifying *)

(** C1: for every identity, the access token minted for it under the process
    secret verifies at the time of issuance and yields that identity. *)
Theorem verify_issued_access_token
    (hmac : string -> string -> Jwt.claims -> string)
    (env : process_env) (now : Z) (i : string) :
  Js.truthy_opt (JWT_SECRET env) = true ->
  exists t c,
    generateAccessToken hmac env now {| Jwt.email := Some i |} = Returns t /\
    verifyToken hmac env now t = Jwt.Decoded c /\
    Jwt.sub_email c = Some i.
Proof.
  intros Hsecret. apply truthy_opt_true in Hsecret as (key & Ekey & Hkey).
  unfold generateAccessToken, verifyToken. rewrite Ekey.
  eexists. eexists. split; [apply sign_with_key; exact Hkey|].
  split.
  - apply verify_issued; [exact Hkey|]. unfold fifteen_minutes. lia.
  - reflexivity.
Qed.

Lemma verify_issued_access_token_witness :
  Js.truthy_opt (JWT_SECRET Demo.env) = true /\
  exists t c,
    generateAccessToken Demo.hmac Demo.env 0 {| Jwt.email := Some "a@x.com" |} = Returns t /\
    verifyToken Demo.hmac Demo.env 0 t = Jwt.Decoded c /\
    Jwt.sub_email c = Some "a@x.com".
Proof.
  split; [reflexivity|].
  apply (verify_issued_access_token Demo.hmac Demo.env 0 "a@x.com").
  reflexivity.
Defined.



(** C7: both helpers call the same [jwt.sign] with the same secret; under a
    configured secret both tokens carry the same algorithm, the same identity
    and issue time and a MAC under the same key, both verify with the same
    [verifyToken], and they differ in the expiry alone: 15 minutes after
    issuance for the access token, 7 days for the refresh token. *)
Theorem tokens_differ_only_in_expiry
    (hmac : string -> string -> Jwt.claims -> string)
    (env : process_env) (now : Z) (user : Jwt.payload) :
  generateAccessToken hmac env now user
    = Jwt.sign hmac user (JWT_SECRET env) (15 * 60) now /\
  generateRefreshToken hmac env now user
    = Jwt.sign hmac user (JWT_SECRET env) (7 * 24 * 60 * 60) now /\
  (forall key, JWT_SECRET env = Some key -> key <> "" ->
     exists a r,
       generateAccessToken hmac env now user = Returns (Jwt.Compact a) /\
       generateRefreshToken hmac env now user = Returns (Jwt.Compact r) /\
       Jwt.alg a = Jwt.alg r /\
       Jwt.signature a = hmac (Jwt.alg a) key (Jwt.body a) /\
       Jwt.signature r = hmac (Jwt.alg r) key (Jwt.body r) /\
       Jwt.sub_email (Jwt.body a) = Jwt.email user /\
       Jwt.sub_email (Jwt.body r) = Jwt.email user /\
       Jwt.iat (Jwt.body a) = Jwt.clockTimestamp now /\
       Jwt.iat (Jwt.body r) = Jwt.clockTimestamp now /\
       Jwt.exp (Jwt.body a) = Some (Jwt.iat (Jwt.body a) + 900) /\
       Jwt.exp (Jwt.body r) = Some (Jwt.iat (Jwt.body r) + 604800) /\
       verifyToken hmac env now (Jwt.Compact a) = Jwt.Decoded (Jwt.body a) /\
       verifyToken hmac env now (Jwt.Compact r) = Jwt.Decoded (Jwt.body r)).
Proof.
  split; [reflexivity|]. split; [reflexivity|].
  intros key Ekey Hkey.
  unfold generateAccessToken, generateRefreshToken, verifyToken. rewrite Ekey.
  rewrite !sign_with_key by exact Hkey.
  eexists. eexists.
  split; [reflexivity|]. split; [reflexivity|].
  repeat (split; [reflexivity|]).
  split.
  - apply (verify_issued hmac user key fifteen_minutes now now Hkey).
    unfold fifteen_minutes. lia.
  - apply (verify_issued hmac user key seven_days now now Hkey).
    unfold seven_days. lia.
Qed.

Lemma tokens_differ_only_in_expiry_witness :
  exists a r,
    generateAccessToken Demo.hmac Demo.env 0 {| Jwt.email := Some "a@x.com" |}
      = Returns (Jwt.Compact a) /\
    generateRefreshToken Demo.hmac Demo.env 0 {| Jwt.email := Some "a@x.com" |}
      = Returns (Jwt.Compact r) /\
    Jwt.exp (Jwt.body a) = Some 900 /\ Jwt.exp (Jwt.body r) = Some 604800.
Proof.
  destruct (tokens_differ_only_in_expiry Demo.hmac Demo.env 0
              {| Jwt.email := Some "a@x.com" |}) as (_ & _ & H).
  destruct (H "s3cret" eq_refl ltac:(discriminate))
    as (a & r & Ha & Hr & _ & _ & _ & _ & _ & Hia & Hir & Hea & Her & _).
  exists a, r. rewrite Hea, Her, Hia, Hir. auto.
Defined.

(** ** POST /api/refresh *)


(** A successful verification leaves a usable secret behind, so the
    re-issue inside the callback does not throw. *)
Lemma refresh_success
    (hmac : string -> string -> Jwt.claims -> string)
    (env : process_env) (now : Z) (req : request) (token : Jwt.token) (user : Jwt.claims) :
  refreshToken req = Some token ->
  Jwt.verify hmac token (JWT_SECRET env) now = Jwt.Decoded user ->
  exists key,
    JWT_SECRET env = Some key /\ key <> "" /\
    refresh hmac env now req =
      Returns (json 200 [("accessToken",
                          JToken (Jwt.issued hmac {| Jwt.email := Jwt.sub_email user |}
                                    key fifteen_minutes now))]).
Proof.
  intros Hc Hv. pose proof Hv as Hv'.
  apply verify_decoded_iff in Hv' as (key & j & Ek & Hk & -> & _ & _ & ->).
  exists key. split; [exact Ek|]. split; [exact Hk|].
  unfold refresh. rewrite Hc. cbn [Jwt.is_empty]. rewrite Hv.
  unfold generateAccessToken. rewrite Ek.
  rewrite sign_with_key by exact Hk. reflexivity.
Qed.



(** C4, amended: an access token returned by refresh carries the identity
    of the token in the [refreshToken] cookie, which is validly signed under
    the process secret and not expired, and may be a token of either kind;
    the response is a function of the cookie alone, whatever the body and the
    headers of the request say. *)
Theorem refresh_identity_from_cookie
    (hmac : string -> string -> Jwt.claims -> string)
    (env : process_env) (now : Z) (req : request) :
  (forall r a,
     refresh hmac env now req = Returns r ->
     accessToken_of r = Some a ->
     exists j ja,
       refreshToken req = Some (Jwt.Compact j) /\
       Jwt.validly_signed hmac (JWT_SECRET env) (Jwt.Compact j) /\
       Jwt.expired (Jwt.body j) now = false /\
       a = Jwt.Compact ja /\
       Jwt.sub_email (Jwt.body ja) = Jwt.sub_email (Jwt.body j)) /\
  (forall req',
     refreshToken req' = refreshToken req ->
     refresh hmac env now req' = refresh hmac env now req).
Proof.
  split.
  - intros r a Hr Ha.
    destruct (refreshToken req) as [token|] eqn:Hc.
    + destruct (Jwt.verify hmac token (JWT_SECRET env) now) as [user|e] eqn:Hv.
      * destruct (refresh_success hmac env now req token user Hc Hv)
          as (key & Ek & Hk & Hr').
        rewrite Hr' in Hr. injection Hr as <-.
        unfold accessToken_of in Ha. simpl in Ha. injection Ha as <-.
        apply verify_decoded_iff in Hv as (key' & j & Ek' & _ & -> & Hs & He & ->).
        rewrite Ek in Ek'. injection Ek' as <-.
        eexists. eexists. split; [reflexivity|].
        split; [exists key, j; auto|].
        split; [exact He|]. split; reflexivity.
      * unfold refresh in Hr. rewrite Hc, Hv in Hr.
        destruct (Jwt.is_empty token); injection Hr as <-; discriminate.
    + unfold refresh in Hr. rewrite Hc in Hr. injection Hr as <-. discriminate.
  - intros req' Hc. unfold refresh. rewrite Hc. reflexivity.
Qed.

Lemma refresh_identity_from_cookie_witness :
  refresh Demo.hmac Demo.env 0 (Demo.with_cookie Demo.alice_refresh "evil@x.com")
    = Returns (json 200 [("accessToken", JToken Demo.alice_access)]) /\
  refresh Demo.hmac Demo.env 0 (Demo.with_cookie Demo.alice_refresh "evil@x.com")
    = refresh Demo.hmac Demo.env 0 (Demo.with_cookie Demo.alice_refresh "a@x.com") /\
  exists j ja,
    Demo.alice_refresh = Jwt.Compact j /\
    Demo.alice_access = Jwt.Compact ja /\
    Jwt.sub_email (Jwt.body ja) = Jwt.sub_email (Jwt.body j).
Proof.
  split; [reflexivity|]. split.
  - apply (refresh_identity_from_cookie Demo.hmac Demo.env 0
             (Demo.with_cookie Demo.alice_refresh "a@x.com")).
    reflexivity.
  - destruct (refresh_identity_from_cookie Demo.hmac Demo.env 0
                (Demo.with_cookie Demo.alice_refresh "evil@x.com")) as [H _].
    destruct (H (json 200 [("accessToken", JToken Demo.alice_access)]) Demo.alice_access
                eq_refl eq_refl)
      as (j & ja & Hc & _ & _ & Ha & Hid).
    exists j, ja. simpl in Hc. injection Hc as Hc.
    split; [rewrite <- Hc; reflexivity|]. split; [exact Ha | exact Hid].
Defined.

(** The cookie is not required to hold a refresh token.  One minute after
    the refresh token minted at time 0 has expired, a request that presents
    it is answered 403, while a request whose cookie holds an access token,
    which no call of [generateRefreshToken] produces, is answered 200 with a
    new access token. *)
Lemma refresh_accepts_access_token :
  (forall now user,
     generateRefreshToken Demo.hmac Demo.env now user <> Returns Demo.late_access) /\
  refresh Demo.hmac Demo.env 604860000 (Demo.with_cookie Demo.alice_refresh "a@x.com")
    = Returns (sendStatus 403) /\
  refresh Demo.hmac Demo.env 604860000 (Demo.with_cookie Demo.late_access "a@x.com")
    = Returns (json 200
                 [("accessToken",
                   JToken (Jwt.issued Demo.hmac {| Jwt.email := Some "a@x.com" |}
                             "s3cret" (15 * 60) 604860000))]).
Proof.
  split; [|split; reflexivity].
  intros now user H. unfold generateRefreshToken in H.
  apply sign_returns_inv in H as (key & _ & _ & H).
  unfold Demo.late_access, Jwt.issued, Jwt.issued_claims in H.
  apply (f_equal (fun t => match t with
                           | Jwt.Compact j => (Jwt.iat (Jwt.body j), Jwt.exp (Jwt.body j))
                           | Jwt.Opaque _ => (0, None)
                           end)) in H.
  cbn [Jwt.iat Jwt.exp Jwt.body] in H. injection H as Hiat Hexp.
  change (Jwt.clockTimestamp 604799000) with 604799 in Hiat.
  unfold seven_days in Hexp. lia.
Qed.

(** ** Protected routes *)

(** C5: on a protected route, a request without bearer token is rejected
    with 401 and one whose token fails verification with 403, in both cases
    without the handler being applied; a request whose token verifies reaches
    the handler with the decoded identity, and the dashboard answers 200 with
    that identity. *)
Theorem protected_route_gate
    (hmac : string -> string -> Jwt.claims -> string)
    (env : process_env) (now : Z) (req : request) :
  (authorization req = None ->
   exists r,
     auth hmac env now req = Reject r /\ status r = 401 /\
     dashboard hmac env now req = r /\
     forall (A : Type) (handler : Jwt.claims -> A) (sendResponse : response -> A),
       protected hmac env now handler sendResponse req = sendResponse r) /\
  (forall token e,
     authorization req = Some token ->
     verifyToken hmac env now token = Jwt.Failed e ->
     exists r,
       auth hmac env now req = Reject r /\ status r = 403 /\
       dashboard hmac env now req = r /\
       forall (A : Type) (handler : Jwt.claims -> A) (sendResponse : response -> A),
         protected hmac env now handler sendResponse req = sendResponse r) /\
  (forall token user,
     authorization req = Some token ->
     verifyToken hmac env now token = Jwt.Decoded user ->
     auth hmac env now req = Next user /\
     (forall (A : Type) (handler : Jwt.claims -> A) (sendResponse : response -> A),
        protected hmac env now handler sendResponse req = handler user) /\
     status (dashboard hmac env now req) = 200 /\
     sent (dashboard hmac env now req)
       = Json (("msg", JString "Welcome to dashboard")
               :: property "user" (Jwt.sub_email user)) /\
     forall i, Jwt.sub_email user = Some i ->
       lookup_field "user"
         (("msg", JString "Welcome to dashboard") :: property "user" (Jwt.sub_email user))
       = Some (JString i)).
Proof.
  split; [|split].
  - intros Hh. eexists. unfold dashboard, protected, auth. rewrite Hh.
    split; [reflexivity|]. split; [reflexivity|]. split; reflexivity.
  - intros token e Hh Hv. eexists. unfold dashboard, protected, auth.
    rewrite Hh, Hv.
    split; [reflexivity|]. split; [reflexivity|]. split; reflexivity.
  - intros token user Hh Hv. unfold dashboard, protected, auth. rewrite Hh, Hv.
    split; [reflexivity|]. split; [reflexivity|].
    split; [reflexivity|]. split; [reflexivity|].
    intros i Hi. rewrite Hi. reflexivity.
Qed.

Lemma protected_route_gate_witness :
  status (dashboard Demo.hmac Demo.env 0 (Demo.with_bearer None)) = 401 /\
  status (dashboard Demo.hmac Demo.env 0 (Demo.with_bearer (Some Demo.forged))) = 403 /\
  sent (dashboard Demo.hmac Demo.env 0 (Demo.with_bearer (Some Demo.alice_access)))
    = Json [("msg", JString "Welcome to dashboard"); ("user", JString "a@x.com")].
Proof.
  split; [|split].
  - destruct (protected_route_gate Demo.hmac Demo.env 0 (Demo.with_bearer None))
      as (H & _ & _).
    destruct (H eq_refl) as (r & _ & Hs & Hd & _). rewrite Hd. exact Hs.
  - destruct (protected_route_gate Demo.hmac Demo.env 0
                (Demo.with_bearer (Some Demo.forged))) as (_ & H & _).
    destruct (H Demo.forged Jwt.JsonWebTokenError eq_refl eq_refl)
      as (r & _ & Hs & Hd & _).
    rewrite Hd. exact Hs.
  - destruct (protected_route_gate Demo.hmac Demo.env 0
                (Demo.with_bearer (Some Demo.alice_access))) as (_ & _ & H).
    destruct (H Demo.alice_access
                (Jwt.issued_claims {| Jwt.email := Some "a@x.com" |} (15 * 60) 0)
                eq_refl eq_refl) as (_ & _ & _ & Hb & _).
    exact Hb.
Defined.

(** ** POST /api/login *)

(** C8: with a reachable store and an email in the body: if the store has a
    record for the email, the password matches its hash and the secret is
    usable, the answer is 200 with the access token in the body and one
    cookie, [refreshToken], HTTP-only, secure, same-site none, with a max age
    of 7 days; if the email is unknown or the password does not match, the
    answer is 400 [Invalid credentials] with no cookie.  The store is left as
    it was. *)
Theorem login_response
    (hmac : string -> string -> Jwt.claims -> string)
    (bcrypt_compare : string -> string -> bool)
    (env : process_env) (now : Z) (req : request) (db : firestore)
    (e : string) :
  reachable db = true ->
  body_email (req_body req) = Some e ->
  (forall p id user rest,
     Js.truthy_opt (JWT_SECRET env) = true ->
     body_password (req_body req) = Some p ->
     where_email e (users db) = (id, user) :: rest ->
     bcrypt_compare p (doc_password user) = true ->
     exists accessToken refreshToken,
       generateAccessToken hmac env now {| Jwt.email := Some e |} = Returns accessToken /\
       generateRefreshToken hmac env now {| Jwt.email := Some e |} = Returns refreshToken /\
       login hmac bcrypt_compare env now req db
       = (Returns
            {| status := 200;
               sent := Json [("accessToken", JToken accessToken)];
               cookies_set :=
                 [{| cookie_name := "refreshToken";
                     cookie_value := refreshToken;
                     cookie_opts := {| httpOnly := true;
                                       secure := true;
                                       sameSite := "none";
                                       maxAge := Some 604800000 |} |}] |},
          db)) /\
  (where_email e (users db) = [] ->
   login hmac bcrypt_compare env now req db
   = (Returns {| status := 400;
                 sent := Json [("msg", JString "Invalid credentials")];
                 cookies_set := [] |},
      db)) /\
  (forall p id user rest,
     body_password (req_body req) = Some p ->
     where_email e (users db) = (id, user) :: rest ->
     bcrypt_compare p (doc_password user) = false ->
     login hmac bcrypt_compare env now req db
     = (Returns {| status := 400;
                   sent := Json [("msg", JString "Invalid credentials")];
                   cookies_set := [] |},
        db)).
Proof.
  intros Hdb He. split; [|split].
  - intros p id user rest Hsecret Hp Hq Hm.
    apply truthy_opt_true in Hsecret as (key & Ekey & Hkey).
    exists (Jwt.issued hmac {| Jwt.email := Some e |} key fifteen_minutes now).
    exists (Jwt.issued hmac {| Jwt.email := Some e |} key seven_days now).
    unfold generateAccessToken, generateRefreshToken. rewrite Ekey.
    rewrite !sign_with_key by exact Hkey.
    split; [reflexivity|]. split; [reflexivity|].
    unfold login, try_catch, bind, query_email, compare, throwing, ret.
    rewrite He, Hp, Hdb, Hq, Hm. simpl.
    unfold generateAccessToken, generateRefreshToken. rewrite Ekey.
    rewrite !sign_with_key by exact Hkey. reflexivity.
  - intros Hq.
    unfold login, try_catch, bind, query_email, ret.
    rewrite He, Hdb, Hq. reflexivity.
  - intros p id user rest Hp Hq Hm.
    unfold login, try_catch, bind, query_email, compare, throwing, ret.
    rewrite He, Hp, Hdb, Hq, Hm. reflexivity.
Qed.

Lemma login_response_witness :
  (exists accessToken refreshToken,
     login Demo.hmac Demo.bcrypt_compare Demo.env 0 (Demo.post "a@x.com" "pw1") Demo.db
     = (Returns
          {| status := 200;
             sent := Json [("accessToken", JToken accessToken)];
             cookies_set :=
               [{| cookie_name := "refreshToken";
                   cookie_value := refreshToken;
                   cookie_opts := {| httpOnly := true;
                                     secure := true;
                                     sameSite := "none";
                                     maxAge := Some 604800000 |} |}] |},
        Demo.db)) /\
  login Demo.hmac Demo.bcrypt_compare Demo.env 0 (Demo.post "a@x.com" "pw2") Demo.db
  = (Returns (json 400 [("msg", JString "Invalid credentials")]), Demo.db) /\
  login Demo.hmac Demo.bcrypt_compare Demo.env 0 (Demo.post "b@x.com" "pw1") Demo.db
  = (Returns (json 400 [("msg", JString "Invalid credentials")]), Demo.db).
Proof.
  split; [|split].
  - destruct (login_response Demo.hmac Demo.bcrypt_compare Demo.env 0
                (Demo.post "a@x.com" "pw1") Demo.db "a@x.com"
                eq_refl eq_refl) as (H & _ & _).
    destruct (H "pw1" "a@x.com" Demo.alice [] eq_refl eq_refl eq_refl eq_refl)
      as (a & r & _ & _ & Hl).
    exists a, r. exact Hl.
  - destruct (login_response Demo.hmac Demo.bcrypt_compare Demo.env 0
                (Demo.post "a@x.com" "pw2") Demo.db "a@x.com"
                eq_refl eq_refl) as (_ & _ & H).
    apply (H "pw2" "a@x.com" Demo.alice []); reflexivity.
  - destruct (login_response Demo.hmac Demo.bcrypt_compare Demo.env 0
                (Demo.post "b@x.com" "pw1") Demo.db "b@x.com"
                eq_refl eq_refl) as (_ & H & _).
    apply H. reflexivity.
Defined.

(** ** Document paths *)




(** [collection.doc] refuses the empty string. *)
Lemma empty_is_no_document_path : is_document_path "" = false.
Proof. reflexivity. Qed.

(** ** POST /api/register *)



(** The answer to a registration for an email that is a document path and
    has no record yet. *)
Lemma register_accepts
    (bcrypt_hash : string -> Z -> string -> string)
    (now : Z) (salt : string) (req : request) (db : firestore) (e p : string) :
  reachable db = true ->
  body_email (req_body req) = Some e ->
  body_password (req_body req) = Some p ->
  where_email e (users db) = [] ->
  is_document_path e = true ->
  register bcrypt_hash now salt req db
  = (Returns (json 200 [("msg", JString "Registered successfully")]),
     {| users := set_doc e {| doc_email := e;
                              doc_password := bcrypt_hash p 10 salt;
                              doc_role := "client";
                              doc_status := "active";
                              createdAt := now |} (users db);
        reachable := true |}).
Proof.
  intros Hdb He Hp Hq Hpath.
  unfold register, try_catch, bind, query_email, hash, doc, set, ret.
  rewrite He, Hp, Hdb, Hq. cbn beta iota. rewrite Hpath. cbn beta iota.
  rewrite Hdb. reflexivity.
Qed.


(** An email with two slashes is a path into a collection below [users]:
    the registration is answered 200, but the query on [users] does not see
    the record, and a login with the same credentials is answered 400. *)
Example register_nested_email :
  exists db',
    register Demo.bcrypt_hash 0 "salt" (Demo.post "a/b/c" "pw1") Demo.empty_db
    = (Returns (json 200 [("msg", JString "Registered successfully")]), db') /\
    where_email "a/b/c" (users db') = [] /\
    login Demo.hmac Demo.bcrypt_compare Demo.env 0 (Demo.post "a/b/c" "pw1") db'
    = (Returns (json 400 [("msg", JString "Invalid credentials")]), db').
Proof. eexists. repeat split. Qed.



(** ** GET /api/stats *)

Lemma fold_tally (l : list user_record) (total verified : Z) :
  fold_left tally l (total, verified)
  = (total + Z.of_nat (length l), verified + count_verified l).
Proof.
  revert total verified. unfold count_verified.
  induction l as [|u l IH]; intros total verified.
  - simpl. f_equal; lia.
  - cbn [fold_left]. unfold tally at 2. rewrite IH.
    cbn [length filter]. destruct (emailVerified u); cbn [length]; f_equal; lia.
Qed.

Lemma count_verified_bounds (l : list user_record) :
  0 <= count_verified l <= Z.of_nat (length l).
Proof.
  unfold count_verified. pose proof (filter_length_le emailVerified l). lia.
Qed.

(** The loop keeps [0 <= verified <= total]. *)
Lemma count_users_bounds (listUsers : directory) (fuel : nat) :
  forall cursor total verified total' verified',
    0 <= verified <= total ->
    count_users listUsers fuel cursor total verified = Some (Returns (total', verified')) ->
    0 <= verified' <= total'.
Proof.
  induction fuel as [|fuel IH]; intros cursor total verified total' verified' Hinv;
    simpl; [discriminate|].
  destruct (listUsers 1000 cursor) as [result|msg]; [|discriminate].
  rewrite fold_tally.
  pose proof (count_verified_bounds (page_users result)) as Hb.
  destruct (Js.truthy_opt (pageToken result)).
  - apply IH. lia.
  - intros H. injection H as <- <-. lia.
Qed.

(** On a directory that answers in finitely many pages the loop ends, with
    the number of principals and of verified principals over all pages,
    however they are split into pages. *)
Lemma count_users_serves (listUsers : directory) cursor pages :
  serves listUsers cursor pages ->
  forall fuel total verified,
    (length pages <= fuel)%nat ->
    count_users listUsers fuel cursor total verified
    = Some (Returns (total + Z.of_nat (length (all_users pages)),
                     verified + count_verified (all_users pages))).
Proof.
  induction 1 as [cursor page Hcall Hlast | cursor page pages Hcall Hmore Hrest IH];
    intros fuel total verified Hfuel;
    (destruct fuel as [|fuel]; [simpl in Hfuel; lia|]);
    cbn [count_users]; rewrite Hcall, fold_tally.
  - rewrite Hlast. unfold all_users. cbn [map concat]. rewrite app_nil_r. reflexivity.
  - rewrite Hmore. rewrite IH by (simpl in Hfuel; lia).
    unfold all_users, count_verified. cbn [map concat].
    rewrite filter_app, !length_app, !Nat2Z.inj_add.
    do 2 f_equal. f_equal; lia.
Qed.

Theorem stats_serves (listUsers : directory) (pages : list list_users_result) (fuel : nat) :
  serves listUsers None pages ->
  (length pages <= fuel)%nat ->
  stats listUsers fuel
  = Some (json 200 (stats_body (Z.of_nat (length (all_users pages)))
                               (count_verified (all_users pages)))).
Proof.
  intros Hs Hfuel. unfold stats.
  rewrite (count_users_serves listUsers None pages Hs fuel 0 0 Hfuel).
  reflexivity.
Qed.

Lemma stats_ok_inv (listUsers : directory) (fuel : nat) (r : response) :
  stats listUsers fuel = Some r -> status r = 200 ->
  exists total verified,
    r = json 200 (stats_body total verified) /\ 0 <= verified <= total.
Proof.
  unfold stats. intros Hr Hs.
  destruct (count_users listUsers fuel None 0 0) as [[[total verified]|msg]|] eqn:E;
    [| |discriminate].
  - injection Hr as <-. exists total, verified. split; [reflexivity|].
    apply (count_users_bounds listUsers fuel None 0 0 total verified); [lia | exact E].
  - injection Hr as <-. simpl in Hs. discriminate.
Qed.

(** C10: a 200 answer of stats, with or without the middleware in front,
    reports [unverifiedUsers = totalUsers - verifiedUsers] with
    [0 <= verifiedUsers <= totalUsers], for any directory and any paging. *)
Theorem stats_counts_consistent
    (hmac : string -> string -> Jwt.claims -> string)
    (env : process_env) (now : Z) (req : request)
    (listUsers : directory) (fuel : nat) (r : response) :
  stats listUsers fuel = Some r \/
  stats_protected hmac env now listUsers fuel req = Some r ->
  status r = 200 ->
  exists total verified unverified,
    number_of "totalUsers" r = Some total /\
    number_of "verifiedUsers" r = Some verified /\
    number_of "unverifiedUsers" r = Some unverified /\
    unverified = total - verified /\
    0 <= verified <= total.
Proof.
  intros Hr Hs.
  assert (H : stats listUsers fuel = Some r).
  { destruct Hr as [Hr | Hr]; [exact Hr|].
    unfold stats_protected, protected, auth in Hr.
    destruct (authorization req) as [token|].
    - destruct (verifyToken hmac env now token); [exact Hr|].
      injection Hr as <-. simpl in Hs. discriminate.
    - injection Hr as <-. simpl in Hs. discriminate. }
  destruct (stats_ok_inv listUsers fuel r H Hs) as (total & verified & -> & Hb).
  exists total, verified, (total - verified).
  repeat (split; [reflexivity|]). exact Hb.
Qed.

Lemma stats_counts_consistent_witness :
  stats Demo.listUsers 2 = Some (json 200 (stats_body 3 2)) /\
  exists total verified unverified,
    number_of "totalUsers" (json 200 (stats_body 3 2)) = Some total /\
    number_of "verifiedUsers" (json 200 (stats_body 3 2)) = Some verified /\
    number_of "unverifiedUsers" (json 200 (stats_body 3 2)) = Some unverified /\
    unverified = total - verified /\
    0 <= verified <= total.
Proof.
  split; [reflexivity|].
  apply (stats_counts_consistent Demo.hmac Demo.env 0 (Demo.with_bearer None)
           Demo.listUsers 2 (json 200 (stats_body 3 2))).
  - left. reflexivity.
  - reflexivity.
Defined.

(** ** Start-up *)

(** The start-up check that exists: without the service account the process
    ends before it listens. *)
Lemma server_exits_without_service_account
    (service_account_ok : string -> bool) (env : process_env) :
  Js.truthy_opt (FIREBASE_SERVICE_ACCOUNT env) = false ->
  server service_account_ok env = Exited "FIREBASE_SERVICE_ACCOUNT is missing".
Proof.
  intros H. unfold server, firebase. rewrite H. reflexivity.
Qed.

(** C6: the start-up sequence does not look at [JWT_SECRET].  Once the
    service account is accepted the process listens although the signing
    secret is absent; from then on every signing attempt throws, every
    verification fails, and a login with the right password is answered 500. *)
Theorem server_starts_without_jwt_secret
    (hmac : string -> string -> Jwt.claims -> string)
    (bcrypt_compare : string -> string -> bool)
    (service_account_ok : string -> bool)
    (env : process_env) :
  firebase service_account_ok env = Returns tt ->
  Js.truthy_opt (JWT_SECRET env) = false ->
  (exists port, server service_account_ok env = Listening port) /\
  (forall now user,
     generateAccessToken hmac env now user
       = Throws "secretOrPrivateKey must have a value" /\
     generateRefreshToken hmac env now user
       = Throws "secretOrPrivateKey must have a value") /\
  (forall now t, verifyToken hmac env now t = Jwt.Failed Jwt.JsonWebTokenError) /\
  (forall now req db e p id user rest,
     reachable db = true ->
     body_email (req_body req) = Some e ->
     body_password (req_body req) = Some p ->
     where_email e (users db) = (id, user) :: rest ->
     bcrypt_compare p (doc_password user) = true ->
     login hmac bcrypt_compare env now req db
     = (Returns (json 500 [("msg", JString "Login failed")]), db)).
Proof.
  intros Hfb Hsecret. split; [|split; [|split]].
  - unfold server. rewrite Hfb. eexists. reflexivity.
  - intros now user. unfold generateAccessToken, generateRefreshToken.
    split; apply sign_without_key; exact Hsecret.
  - intros now t. unfold verifyToken. apply verify_malformed_iff.
    right. intros (key & j & Ek & Hk & _).
    rewrite Ek in Hsecret. simpl in Hsecret.
    apply truthy_true in Hk. congruence.
  - intros now req db e p id user rest Hdb He Hp Hq Hm.
    unfold login, try_catch, bind, query_email, compare, throwing, ret.
    rewrite He, Hp, Hdb, Hq, Hm. simpl.
    unfold generateAccessToken.
    rewrite (sign_without_key hmac _ _ _ _ Hsecret). reflexivity.
Qed.

Lemma server_starts_without_jwt_secret_witness :
  server (fun _ => true) Demo.env_no_secret = Listening "5000" /\
  login Demo.hmac Demo.bcrypt_compare Demo.env_no_secret 0
    (Demo.post "a@x.com" "pw1") Demo.db
  = (Returns (json 500 [("msg", JString "Login failed")]), Demo.db).
Proof.
  split; [reflexivity|].
  destruct (server_starts_without_jwt_secret Demo.hmac Demo.bcrypt_compare
              (fun _ => true) Demo.env_no_secret eq_refl eq_refl) as (_ & _ & _ & H).
  apply (H 0 (Demo.post "a@x.com" "pw1") Demo.db "a@x.com" "pw1"
           "a@x.com" Demo.alice []); reflexivity.
Defined.

(** * Further properties of the handlers *)

(** ** Login and register on every request *)

Ltac run_handler :=
  unfold login, register, try_catch, bind, query_email, hash, compare, doc, set,
    throwing, ret, reject, generateAccessToken, generateRefreshToken, Jwt.sign.

(** The three ways login ends. *)
Lemma login_cases
    (hmac : string -> string -> Jwt.claims -> string)
    (bcrypt_compare : string -> string -> bool)
    (env : process_env) (now : Z) (req : request) (db : firestore) :
  login hmac bcrypt_compare env now req db
    = (Returns (json 500 [("msg", JString "Login failed")]), db) \/
  login hmac bcrypt_compare env now req db
    = (Returns (json 400 [("msg", JString "Invalid credentials")]), db) \/
  exists e p id user rest key,
    body_email (req_body req) = Some e /\
    body_password (req_body req) = Some p /\
    where_email e (users db) = (id, user) :: rest /\
    bcrypt_compare p (doc_password user) = true /\
    JWT_SECRET env = Some key /\ key <> "" /\
    login hmac bcrypt_compare env now req db
    = (Returns
         (cookie "refreshToken"
            (Jwt.issued hmac {| Jwt.email := Some e |} key seven_days now)
            refresh_cookie_options
            (json 200 [("accessToken",
                        JToken (Jwt.issued hmac {| Jwt.email := Some e |} key
                                  fifteen_minutes now))])),
       db).
Proof.
  run_handler.
  destruct (body_email (req_body req)) as [e|] eqn:He; [|auto].
  destruct (reachable db) eqn:Hdb; [|auto].
  destruct (where_email e (users db)) as [|[id user] rest] eqn:Hq; [auto|].
  destruct (body_password (req_body req)) as [p|] eqn:Hp; [|auto].
  destruct (bcrypt_compare p (doc_password user)) eqn:Hm; cbn [negb]; [|auto].
  destruct (JWT_SECRET env) as [key|] eqn:Ek; [|auto].
  destruct (Js.truthy key) eqn:Hk; [|auto].
  right. right. exists e, p, id, user, rest, key.
  apply truthy_true in Hk. auto 10.
Qed.

(** X1: login always answers, with 200, 400 or 500, and never writes to the
    store.  Only a 200 answer carries a token or a cookie, and a 200 answer
    is given only when the body names an email whose first stored record has
    a hash that the password in the body matches. *)
Theorem login_answers
    (hmac : string -> string -> Jwt.claims -> string)
    (bcrypt_compare : string -> string -> bool)
    (env : process_env) (now : Z) (req : request) (db : firestore) :
  exists r,
    login hmac bcrypt_compare env now req db = (Returns r, db) /\
    (status r = 200 \/ status r = 400 \/ status r = 500) /\
    (status r <> 200 -> cookies_set r = [] /\ accessToken_of r = None) /\
    (status r = 200 ->
     exists e p id user rest key,
       body_email (req_body req) = Some e /\
       body_password (req_body req) = Some p /\
       where_email e (users db) = (id, user) :: rest /\
       bcrypt_compare p (doc_password user) = true /\
       JWT_SECRET env = Some key /\ key <> "" /\
       accessToken_of r
         = Some (Jwt.issued hmac {| Jwt.email := Some e |} key fifteen_minutes now) /\
       cookies_set r
         = [{| cookie_name := "refreshToken";
               cookie_value :=
                 Jwt.issued hmac {| Jwt.email := Some e |} key seven_days now;
               cookie_opts := refresh_cookie_options |}]).
Proof.
  destruct (login_cases hmac bcrypt_compare env now req db)
    as [H | [H | (e & p & id & user & rest & key & He & Hp & Hq & Hm & Ek & Hk & H)]];
    rewrite H; eexists; (split; [reflexivity|]); cbn [status json send_json cookie].
  - split; [auto|]. split; [auto|]. discriminate.
  - split; [auto|]. split; [auto|]. discriminate.
  - split; [auto|]. split; [intros Hn; contradiction Hn; reflexivity|].
    intros _. exists e, p, id, user, rest, key.
    repeat (split; [assumption|]). split; reflexivity.
Qed.

(** X2: login answers 500 exactly when the body has no email, the store
    cannot be reached, the email is known but the body has no password, or
    the password matches and the process has no usable signing secret. *)
Theorem login_fails_iff
    (hmac : string -> string -> Jwt.claims -> string)
    (bcrypt_compare : string -> string -> bool)
    (env : process_env) (now : Z) (req : request) (db : firestore) :
  login hmac bcrypt_compare env now req db
    = (Returns (json 500 [("msg", JString "Login failed")]), db)
  <->
  body_email (req_body req) = None \/
  reachable db = false \/
  exists e id user rest,
    body_email (req_body req) = Some e /\
    where_email e (users db) = (id, user) :: rest /\
    (body_password (req_body req) = None \/
     exists p, body_password (req_body req) = Some p /\
               bcrypt_compare p (doc_password user) = true /\
               Js.truthy_opt (JWT_SECRET env) = false).
Proof.
  run_handler.
  destruct (body_email (req_body req)) as [e|] eqn:He; [|split; auto].
  destruct (reachable db) eqn:Hdb; [|split; auto].
  destruct (where_email e (users db)) as [|[id user] rest] eqn:Hq.
  { split; [discriminate|].
    intros [H|[H|(e' & id & user & rest & E & Hq' & _)]]; try discriminate.
    injection E as <-. rewrite Hq in Hq'. discriminate. }
  destruct (body_password (req_body req)) as [p|] eqn:Hp.
  2:{ split; [|reflexivity]. intros _. right. right.
      exists e, id, user, rest. auto. }
  destruct (bcrypt_compare p (doc_password user)) eqn:Hm; cbn [negb].
  2:{ split; [discriminate|].
      intros [H|[H|(e' & id' & user' & rest' & E & Hq' & [H | (p' & Ep & Hm' & _)])]];
        try discriminate.
      injection E as <-. rewrite Hq in Hq'. injection Hq' as <- <- <-.
      injection Ep as <-. congruence. }
  destruct (JWT_SECRET env) as [key|] eqn:Ek.
  2:{ split; [|reflexivity]. intros _. right. right.
      exists e, id, user, rest. split; [auto|]. split; [auto|].
      right. exists p. auto. }
  cbn [Js.truthy_opt].
  destruct (Js.truthy key) eqn:Hk.
  - split; [discriminate|].
    intros [H|[H|(e' & id' & user' & rest' & E & Hq' & [H | (p' & Ep & _ & Hs)])]];
      discriminate.
  - split; [|reflexivity]. intros _. right. right.
    exists e, id, user, rest. split; [auto|]. split; [auto|].
    right. exists p. auto.
Qed.

(** The three ways register ends. *)
Lemma register_cases
    (bcrypt_hash : string -> Z -> string -> string)
    (now : Z) (salt : string) (req : request) (db : firestore) :
  register bcrypt_hash now salt req db
    = (Returns (json 500 [("msg", JString "Register failed")]), db) \/
  register bcrypt_hash now salt req db
    = (Returns (json 400 [("msg", JString "User exists")]), db) \/
  exists e p,
    body_email (req_body req) = Some e /\
    body_password (req_body req) = Some p /\
    where_email e (users db) = [] /\
    reachable db = true /\
    is_document_path e = true /\
    register bcrypt_hash now salt req db
    = (Returns (json 200 [("msg", JString "Registered successfully")]),
       {| users := set_doc e {| doc_email := e;
                                doc_password := bcrypt_hash p 10 salt;
                                doc_role := "client";
                                doc_status := "active";
                                createdAt := now |} (users db);
          reachable := true |}).
Proof.
  run_handler.
  destruct (body_email (req_body req)) as [e|] eqn:He; [|auto].
  destruct (reachable db) eqn:Hdb; [|auto].
  destruct (where_email e (users db)) as [|d rest] eqn:Hq; [|auto].
  destruct (body_password (req_body req)) as [p|] eqn:Hp; [|auto].
  cbn beta iota.
  destruct (is_document_path e) eqn:Hpath; [|auto].
  cbn beta iota. rewrite Hdb.
  right. right. exists e, p. auto 10.
Qed.

(** X3: register always answers, with 200, 400 or 500, never sets a cookie
    and never hands out a token.  The store changes only with a 200 answer,
    and then by the one document written under the email of the body, for
    which no record existed. *)
Theorem register_answers
    (bcrypt_hash : string -> Z -> string -> string)
    (now : Z) (salt : string) (req : request) (db : firestore) :
  exists r db',
    register bcrypt_hash now salt req db = (Returns r, db') /\
    (status r = 200 \/ status r = 400 \/ status r = 500) /\
    cookies_set r = [] /\ accessToken_of r = None /\
    reachable db' = reachable db /\
    (status r <> 200 -> db' = db) /\
    (status r = 200 ->
     exists e p,
       body_email (req_body req) = Some e /\
       body_password (req_body req) = Some p /\
       where_email e (users db) = [] /\
       users db'
       = set_doc e {| doc_email := e;
                      doc_password := bcrypt_hash p 10 salt;
                      doc_role := "client";
                      doc_status := "active";
                      createdAt := now |} (users db)).
Proof.
  destruct (register_cases bcrypt_hash now salt req db)
    as [H | [H | (e & p & He & Hp & Hq & Hdb & _ & H)]];
    rewrite H; eexists; eexists; (split; [reflexivity|]); cbn [status json send_json].
  - split; [auto|]. do 3 (split; [reflexivity|]). split; [auto|]. discriminate.
  - split; [auto|]. do 3 (split; [reflexivity|]). split; [auto|]. discriminate.
  - split; [auto|]. split; [reflexivity|]. split; [reflexivity|].
    split; [symmetry; exact Hdb|].
    split; [intros Hn; contradiction Hn; reflexivity|].
    intros _. exists e, p. auto.
Qed.



(** ** The users collection *)

Lemma compare_same (s : string) : String.compare s s = Eq.
Proof.
  pose proof (String.compare_antisym s s) as H.
  destruct (String.compare s s); simpl in H; congruence.
Qed.

Lemma lookup_insert_doc (k : string) (d : user_doc) (docs : list (string * user_doc)) :
  lookup_doc k (insert_doc k d docs) = Some d.
Proof.
  induction docs as [|[k' d'] rest IH]; simpl.
  - rewrite String.eqb_refl. reflexivity.
  - destruct (String.compare k k') eqn:C; simpl.
    + rewrite String.eqb_refl. reflexivity.
    + rewrite String.eqb_refl. reflexivity.
    + destruct (String.eqb_spec k' k) as [->|_]; [|exact IH].
      rewrite compare_same in C. discriminate.
Qed.

Lemma lookup_insert_doc_other (k k' : string) (d : user_doc)
    (docs : list (string * user_doc)) :
  k' <> k -> lookup_doc k' (insert_doc k d docs) = lookup_doc k' docs.
Proof.
  intros Hne. induction docs as [|[x v] rest IH]; simpl.
  - destruct (String.eqb_spec k k'); [congruence | reflexivity].
  - destruct (String.compare k x) eqn:C; simpl.
    + apply String.compare_eq_iff in C. subst x.
      destruct (String.eqb_spec k k'); [congruence | reflexivity].
    + destruct (String.eqb_spec k k'); [congruence | reflexivity].
    + rewrite IH. reflexivity.
Qed.


Lemma keyed_by_email_insert (k : string) (d : user_doc) (docs : list (string * user_doc)) :
  doc_email d = k -> keyed_by_email docs -> keyed_by_email (insert_doc k d docs).
Proof.
  unfold keyed_by_email. intros Hd.
  induction docs as [|[x v] rest IH]; simpl; intros H.
  - constructor; [exact Hd | constructor].
  - inversion H as [|y l Hy Hl]; subst y l.
    destruct (String.compare k x).
    + constructor; [exact Hd | exact Hl].
    + constructor; [exact Hd | exact H].
    + constructor; [exact Hy | apply IH; exact Hl].
Qed.

(** Under the keying by email, a write under [k] leaves the records of every
    other email as they were. *)
Lemma where_email_insert_other (k e' : string) (d : user_doc)
    (docs : list (string * user_doc)) :
  doc_email d = k -> e' <> k -> keyed_by_email docs ->
  where_email e' (insert_doc k d docs) = where_email e' docs.
Proof.
  unfold keyed_by_email, where_email. intros Hd Hne.
  assert (Hd' : String.eqb (doc_email d) e' = false)
    by (apply String.eqb_neq; congruence).
  assert (Hk' : String.eqb k e' = false)
    by (apply String.eqb_neq; congruence).
  induction docs as [|[x v] rest IH]; simpl; intros H.
  - rewrite Hd', andb_false_r. reflexivity.
  - inversion H as [|y l Hy Hl]; subst y l. simpl in Hy.
    destruct (String.compare k x) eqn:C; simpl.
    + apply String.compare_eq_iff in C.
      rewrite Hd', Hy, <- C, Hk', !andb_false_r. reflexivity.
    + rewrite Hd', andb_false_r. reflexivity.
    + rewrite IH by exact Hl. reflexivity.
Qed.

(** X5: for a request whose email, when it is a document path, is written
    without a leading or trailing slash (as every plain id is), register
    keeps the collection keyed by email, and under that keying it leaves the
    records found for any other email untouched, whatever the answer.  An
    email such as [a/] is not covered: [collection.doc] drops the slash and
    the write lands on the document of the email [a]. *)
Theorem register_keeps_other_users
    (bcrypt_hash : string -> Z -> string -> string)
    (now : Z) (salt : string) (req : request) (db : firestore) :
  keyed_by_email (users db) ->
  (forall e, body_email (req_body req) = Some e ->
             is_document_path e = true -> key e = e) ->
  keyed_by_email (users (snd (register bcrypt_hash now salt req db))) /\
  forall e',
    body_email (req_body req) <> Some e' ->
    where_email e' (users (snd (register bcrypt_hash now salt req db)))
    = where_email e' (users db).
Proof.
  intros Hk Hcanon.
  destruct (register_cases bcrypt_hash now salt req db)
    as [H | [H | (e & p & He & _ & _ & _ & Hpath & H)]]; rewrite H; cbn [snd users]; auto.
  unfold set_doc. rewrite (Hcanon e He Hpath). split.
  - apply keyed_by_email_insert; [reflexivity | exact Hk].
  - intros e' Hne. apply where_email_insert_other; [reflexivity | congruence | exact Hk].
Qed.

Lemma register_keeps_other_users_witness :
  where_email "a@x.com"
    (users (snd (register Demo.bcrypt_hash 0 "salt" (Demo.post "c@x.com" "pw3") Sample.db)))
  = where_email "a@x.com" (users Sample.db).
Proof.
  apply (register_keeps_other_users Demo.bcrypt_hash 0 "salt"
           (Demo.post "c@x.com" "pw3") Sample.db).
  - repeat constructor.
  - intros e He _. injection He as <-. reflexivity.
  - discriminate.
Defined.

(** ** Register, then login *)




Lemma login_unknown
    (hmac : string -> string -> Jwt.claims -> string)
    (bcrypt_compare : string -> string -> bool)
    (env : process_env) (now : Z) (req : request) (db : firestore) (e : string) :
  reachable db = true ->
  body_email (req_body req) = Some e ->
  where_email e (users db) = [] ->
  login hmac bcrypt_compare env now req db
  = (Returns (json 400 [("msg", JString "Invalid credentials")]), db).
Proof.
  intros Hdb He Hq. run_handler. rewrite He, Hdb, Hq. reflexivity.
Qed.






(** ** Tokens in use *)

Lemma refresh_issued
    (hmac : string -> string -> Jwt.claims -> string)
    (env : process_env) (now now' lifetime : Z) (req : request)
    (key : string) (user : Jwt.payload) :
  JWT_SECRET env = Some key -> key <> "" ->
  refreshToken req = Some (Jwt.issued hmac user key lifetime now) ->
  (Jwt.clockTimestamp now' < Jwt.clockTimestamp now + lifetime ->
   refresh hmac env now' req
   = Returns (json 200 [("accessToken",
                         JToken (Jwt.issued hmac {| Jwt.email := Jwt.email user |}
                                   key fifteen_minutes now'))])) /\
  (Jwt.clockTimestamp now + lifetime <= Jwt.clockTimestamp now' ->
   refresh hmac env now' req = Returns (sendStatus 403)).
Proof.
  intros Ek Hk Hc. split; intros Hwin.
  - destruct (refresh_success hmac env now' req _ (Jwt.issued_claims user lifetime now) Hc)
      as (key' & Ek' & _ & Hr).
    + rewrite Ek. apply verify_issued; assumption.
    + rewrite Ek in Ek'. injection Ek' as <-. exact Hr.
  - unfold refresh. rewrite Hc. cbn [Jwt.is_empty Jwt.issued].
    change (Jwt.Compact _) with (Jwt.issued hmac user key lifetime now).
    rewrite Ek, verify_issued_late by assumption. reflexivity.
Qed.

Lemma dashboard_issued
    (hmac : string -> string -> Jwt.claims -> string)
    (env : process_env) (now now' lifetime : Z) (req : request)
    (key : string) (user : Jwt.payload) :
  JWT_SECRET env = Some key -> key <> "" ->
  authorization req = Some (Jwt.issued hmac user key lifetime now) ->
  (Jwt.clockTimestamp now' < Jwt.clockTimestamp now + lifetime ->
   dashboard hmac env now' req
   = json 200 (("msg", JString "Welcome to dashboard")
               :: property "user" (Jwt.email user))) /\
  (Jwt.clockTimestamp now + lifetime <= Jwt.clockTimestamp now' ->
   status (dashboard hmac env now' req) = 403).
Proof.
  intros Ek Hk Hh. unfold dashboard, protected, auth, verifyToken.
  rewrite Hh, Ek. split; intros Hwin.
  - rewrite verify_issued by assumption. reflexivity.
  - rewrite verify_issued_late by assumption. reflexivity.
Qed.

(** X8: what a 200 answer of login hands out works as a session: within
    seven days of the login the cookie value makes refresh mint an access
    token for the email that logged in, and within fifteen minutes of their
    minting both that token and the one in the login body open the dashboard,
    which echoes the same email. *)
Theorem session_lifecycle
    (hmac : string -> string -> Jwt.claims -> string)
    (bcrypt_compare : string -> string -> bool)
    (env : process_env) (now : Z) (req : request) (db : firestore) (r : response) :
  login hmac bcrypt_compare env now req db = (Returns r, db) ->
  status r = 200 ->
  exists e access session,
    body_email (req_body req) = Some e /\
    accessToken_of r = Some access /\
    cookies_set r = [{| cookie_name := "refreshToken";
                        cookie_value := session;
                        cookie_opts := refresh_cookie_options |}] /\
    (forall later call,
       Jwt.clockTimestamp later < Jwt.clockTimestamp now + 900 ->
       authorization call = Some access ->
       dashboard hmac env later call
       = json 200 [("msg", JString "Welcome to dashboard"); ("user", JString e)]) /\
    (forall later renew,
       Jwt.clockTimestamp later < Jwt.clockTimestamp now + 604800 ->
       refreshToken renew = Some session ->
       exists access',
         refresh hmac env later renew
         = Returns (json 200 [("accessToken", JToken access')]) /\
         forall later' call,
           Jwt.clockTimestamp later' < Jwt.clockTimestamp later + 900 ->
           authorization call = Some access' ->
           dashboard hmac env later' call
           = json 200 [("msg", JString "Welcome to dashboard"); ("user", JString e)]).
Proof.
  intros Hl H200.
  destruct (login_cases hmac bcrypt_compare env now req db)
    as [H | [H | (e & p & id & user & rest & key & He & _ & _ & _ & Ek & Hk & H)]];
    rewrite H in Hl; injection Hl as <-; try discriminate H200.
  exists e. eexists. eexists.
  split; [exact He|]. split; [reflexivity|]. split; [reflexivity|]. split.
  - intros later call Hwin Hh.
    apply (dashboard_issued hmac env now later fifteen_minutes call key
             {| Jwt.email := Some e |} Ek Hk Hh). exact Hwin.
  - intros later renew Hwin Hcookie. eexists. split.
    + apply (refresh_issued hmac env now later seven_days renew key
               {| Jwt.email := Some e |} Ek Hk Hcookie). exact Hwin.
    + intros later' call Hwin' Hh.
      apply (dashboard_issued hmac env later later' fifteen_minutes call key
               {| Jwt.email := Some e |} Ek Hk Hh). exact Hwin'.
Qed.

Lemma session_lifecycle_witness :
  exists access',
    refresh Demo.hmac Demo.env (6 * 24 * 60 * 60 * 1000)
      (Demo.with_cookie Demo.alice_refresh "b@x.com")
    = Returns (json 200 [("accessToken", JToken access')]) /\
    dashboard Demo.hmac Demo.env (6 * 24 * 60 * 60 * 1000 + 60000)
      (Demo.with_bearer (Some access'))
    = json 200 [("msg", JString "Welcome to dashboard"); ("user", JString "a@x.com")].
Proof.
  destruct (session_lifecycle Demo.hmac Demo.bcrypt_compare Demo.env 0
              (Demo.post "a@x.com" "pw1") Demo.db
              (cookie "refreshToken" Demo.alice_refresh refresh_cookie_options
                 (json 200 [("accessToken", JToken Demo.alice_access)]))
              eq_refl eq_refl)
    as (e & access & session & He & _ & Hc & _ & Hrenew).
  injection He as <-. injection Hc as <-.
  destruct (Hrenew (6 * 24 * 60 * 60 * 1000)
              (Demo.with_cookie Demo.alice_refresh "b@x.com") eq_refl eq_refl)
    as (access' & Hr & Hd).
  exists access'. split; [exact Hr|].
  apply Hd; reflexivity.
Defined.



(** X10: the two kinds of token are not told apart.  An access token in the
    [refreshToken] cookie makes refresh mint a new access token during its
    fifteen minutes, and a refresh token sent as bearer token opens the
    dashboard during its seven days. *)
Theorem token_kinds_interchangeable
    (hmac : string -> string -> Jwt.claims -> string)
    (env : process_env) (now later : Z) (user : Jwt.payload)
    (access session : Jwt.token) (req : request) :
  generateAccessToken hmac env now user = Returns access ->
  generateRefreshToken hmac env now user = Returns session ->
  (refreshToken req = Some access ->
   Jwt.clockTimestamp later < Jwt.clockTimestamp now + 900 ->
   exists access',
     refresh hmac env later req = Returns (json 200 [("accessToken", JToken access')])) /\
  (authorization req = Some session ->
   Jwt.clockTimestamp later < Jwt.clockTimestamp now + 604800 ->
   dashboard hmac env later req
   = json 200 (("msg", JString "Welcome to dashboard")
               :: property "user" (Jwt.email user))).
Proof.
  intros Ha Hs. unfold generateAccessToken in Ha. unfold generateRefreshToken in Hs.
  apply sign_returns_inv in Ha as (key & Ek & Hk & ->).
  apply sign_returns_inv in Hs as (key' & Ek' & _ & ->).
  rewrite Ek in Ek'. injection Ek' as <-.
  split.
  - intros Hc Hwin. eexists.
    apply (refresh_issued hmac env now later fifteen_minutes req key user Ek Hk Hc).
    exact Hwin.
  - intros Hh Hwin.
    apply (dashboard_issued hmac env now later seven_days req key user Ek Hk Hh).
    exact Hwin.
Qed.

Lemma token_kinds_interchangeable_witness :
  (exists access',
     refresh Demo.hmac Demo.env 60000 (Demo.with_cookie Demo.alice_access "a@x.com")
     = Returns (json 200 [("accessToken", JToken access')])) /\
  dashboard Demo.hmac Demo.env (24 * 60 * 60 * 1000)
    (Demo.with_bearer (Some Demo.alice_refresh))
  = json 200 [("msg", JString "Welcome to dashboard"); ("user", JString "a@x.com")].
Proof.
  split.
  - apply (token_kinds_interchangeable Demo.hmac Demo.env 0 60000
             {| Jwt.email := Some "a@x.com" |} Demo.alice_access Demo.alice_refresh
             (Demo.with_cookie Demo.alice_access "a@x.com") eq_refl eq_refl);
      reflexivity.
  - apply (token_kinds_interchangeable Demo.hmac Demo.env 0 (24 * 60 * 60 * 1000)
             {| Jwt.email := Some "a@x.com" |} Demo.alice_access Demo.alice_refresh
             (Demo.with_bearer (Some Demo.alice_refresh)) eq_refl eq_refl);
      reflexivity.
Defined.



(** ** POST /api/logout *)



(** ** DELETE /api/users/:id *)

Lemma get_doc_some (id : string) (docs : list (string * user_doc)) (data : user_doc) :
  get_doc id docs = Some data ->
  is_document_path id = true /\ key id = id /\ lookup_doc id docs = Some data.
Proof.
  unfold get_doc.
  destruct (is_document_path id) eqn:Hp; cbn [andb]; [|discriminate].
  destruct (String.eqb_spec (key id) id) as [Hk|_]; [|discriminate].
  auto.
Qed.

Lemma lookup_delete_doc (k : string) (docs : list (string * user_doc)) :
  lookup_doc k (delete_doc k docs) = None.
Proof.
  unfold delete_doc. induction docs as [|[x v] rest IH]; simpl; [reflexivity|].
  destruct (String.eqb x k) eqn:E; simpl; [exact IH|].
  rewrite E. exact IH.
Qed.

Lemma lookup_delete_doc_other (k k' : string) (docs : list (string * user_doc)) :
  k' <> k -> lookup_doc k' (delete_doc k docs) = lookup_doc k' docs.
Proof.
  intros Hne. unfold delete_doc. induction docs as [|[x v] rest IH]; simpl; [reflexivity|].
  destruct (String.eqb_spec x k) as [->|Hk]; simpl.
  - destruct (String.eqb_spec k k'); [congruence | exact IH].
  - rewrite IH. reflexivity.
Qed.

Lemma get_delete_doc (id : string) (docs : list (string * user_doc)) :
  get_doc id (delete_doc id docs) = None.
Proof.
  unfold get_doc. rewrite lookup_delete_doc.
  destruct (is_document_path id && String.eqb (key id) id); reflexivity.
Qed.

Lemma get_delete_doc_other (id id' : string) (docs : list (string * user_doc)) :
  id' <> id -> get_doc id' (delete_doc id docs) = get_doc id' docs.
Proof.
  intros Hne. unfold get_doc. rewrite (lookup_delete_doc_other id id' docs Hne).
  reflexivity.
Qed.

Lemma where_email_delete_doc (e : string) (docs : list (string * user_doc)) :
  keyed_by_email docs -> where_email e (delete_doc e docs) = [].
Proof.
  unfold keyed_by_email, where_email, delete_doc.
  induction docs as [|[k v] rest IH]; simpl; intros H; [reflexivity|].
  inversion H as [|x l Hx Hl]; subst x l. simpl in Hx.
  destruct (String.eqb k e) eqn:E; simpl.
  - apply IH. exact Hl.
  - rewrite Hx, E, andb_false_r. apply IH. exact Hl.
Qed.

Lemma keyed_by_email_delete_doc (id : string) (docs : list (string * user_doc)) :
  keyed_by_email docs -> keyed_by_email (delete_doc id docs).
Proof.
  unfold keyed_by_email, delete_doc. intros H.
  apply Forall_forall. intros d Hd. apply filter_In in Hd as [Hd _].
  revert d Hd. apply Forall_forall. exact H.
Qed.

(** What the handler does for an id under which a document is stored. *)
Lemma delete_user_existing
    (id : string) (deleted : bool) (db : firestore) (a : firebase_auth) (data : user_doc) :
  reachable db = true ->
  get_doc id (users db) = Some data ->
  delete_user id deleted db a
  = (let a' :=
       match getUserByEmail (doc_email data) a with
       | Returns user => snd (deleteUser (uid user) a)
       | Throws _ => a
       end in
     if deleted then
       (Success, {| users := delete_doc id (users db); reachable := true |}, a')
     else (Replied (json 500 [("msg", JString "Delete failed")]), db, a')).
Proof.
  intros Hdb Hg. apply get_doc_some in Hg as (Hp & Hk & Hl).
  unfold delete_user. rewrite Hp, Hdb, Hk, Hl. reflexivity.
Qed.



(** X14: deleting a user that has a document succeeds, when the store
    performs the delete, whatever happens to the account: afterwards the
    document is gone, every other document is what it was, and the store is
    still keyed by email if it was. *)
Theorem delete_user_removes_document
    (id : string) (db : firestore) (a : firebase_auth) (data : user_doc) :
  reachable db = true ->
  get_doc id (users db) = Some data ->
  exists db' a',
    delete_user id true db a = (Success, db', a') /\
    reachable db' = true /\
    get_doc id (users db') = None /\
    (forall id', id' <> id -> get_doc id' (users db') = get_doc id' (users db)) /\
    (keyed_by_email (users db) -> keyed_by_email (users db')).
Proof.
  intros Hdb Hg. rewrite (delete_user_existing id true db a data Hdb Hg).
  eexists. eexists. split; [reflexivity|]. cbn [users reachable].
  split; [reflexivity|]. split; [apply get_delete_doc|].
  split; [intros id' Hne; apply get_delete_doc_other; exact Hne|].
  apply keyed_by_email_delete_doc.
Qed.

Lemma delete_user_removes_document_witness :
  exists db' a',
    delete_user "a@x.com" true Sample.db Sample.auth = (Success, db', a') /\
    get_doc "a@x.com" (users db') = None /\
    get_doc "b@x.com" (users db') = Some Sample.bob.
Proof.
  destruct (delete_user_removes_document "a@x.com" Sample.db Sample.auth Demo.alice
              eq_refl eq_refl) as (db' & a' & Hd & _ & Hgone & Hkept & _).
  exists db', a'. split; [exact Hd|]. split; [exact Hgone|].
  rewrite Hkept by discriminate. reflexivity.
Defined.




(** X16: in a store keyed by email, once the document of an email is
    deleted, a login with that email is answered 400 whatever the password,
    and the email can be registered again. *)
Theorem delete_then_login_and_register
    (hmac : string -> string -> Jwt.claims -> string)
    (bcrypt_hash : string -> Z -> string -> string)
    (bcrypt_compare : string -> string -> bool)
    (env : process_env) (now : Z) (salt : string)
    (e : string) (db : firestore) (a : firebase_auth) (data : user_doc)
    (req : request) :
  keyed_by_email (users db) ->
  reachable db = true ->
  get_doc e (users db) = Some data ->
  body_email (req_body req) = Some e ->
  let db' := snd (fst (delete_user e true db a)) in
  login hmac bcrypt_compare env now req db'
    = (Returns (json 400 [("msg", JString "Invalid credentials")]), db') /\
  (forall p, body_password (req_body req) = Some p ->
     fst (register bcrypt_hash now salt req db')
     = Returns (json 200 [("msg", JString "Registered successfully")])).
Proof.
  intros Hk Hdb Hg He db'.
  assert (Hdb' : reachable db' = true /\ where_email e (users db') = []).
  { unfold db'. rewrite (delete_user_existing e true db a data Hdb Hg).
    cbn [fst snd users reachable].
    split; [reflexivity | apply where_email_delete_doc; exact Hk]. }
  destruct Hdb' as [Hr Hq]. split.
  - apply (login_unknown hmac bcrypt_compare env now req db' e Hr He Hq).
  - intros p Hp. apply get_doc_some in Hg as (Hpath & _ & _).
    rewrite (register_accepts bcrypt_hash now salt req db' e p Hr He Hp Hq Hpath).
    reflexivity.
Qed.

Lemma delete_then_login_and_register_witness :
  login Demo.hmac Demo.bcrypt_compare Demo.env 0 (Demo.post "a@x.com" "pw1")
    (snd (fst (delete_user "a@x.com" true Sample.db Sample.auth)))
  = (Returns (json 400 [("msg", JString "Invalid credentials")]),
     snd (fst (delete_user "a@x.com" true Sample.db Sample.auth))).
Proof.
  apply (delete_then_login_and_register Demo.hmac Demo.bcrypt_hash Demo.bcrypt_compare
           Demo.env 0 "salt" "a@x.com" Sample.db Sample.auth Demo.alice
           (Demo.post "a@x.com" "pw1")).
  - repeat constructor.
  - reflexivity.
  - reflexivity.
  - reflexivity.
Defined.

(** ** The directory loops *)

(** X17: on a directory that answers in finitely many pages, stats ends
    with 200 and reports the number of principals of all pages, the number of
    verified ones among them and their difference, however the principals
    are split into pages. *)
Theorem stats_counts_all_pages
    (listUsers : directory) (pages : list list_users_result) (fuel : nat) :
  serves listUsers None pages ->
  (length pages <= fuel)%nat ->
  exists r,
    stats listUsers fuel = Some r /\ status r = 200 /\
    number_of "totalUsers" r = Some (Z.of_nat (length (all_users pages))) /\
    number_of "verifiedUsers" r = Some (count_verified (all_users pages)) /\
    number_of "unverifiedUsers" r
      = Some (Z.of_nat (length (filter (fun u => negb (emailVerified u))
                                       (all_users pages)))).
Proof.
  intros Hs Hfuel. unfold stats.
  rewrite (count_users_serves listUsers None pages Hs fuel 0 0 Hfuel).
  eexists. split; [reflexivity|]. split; [reflexivity|].
  split; [reflexivity|]. split; [reflexivity|].
  unfold number_of. cbn. f_equal. unfold count_verified.
  pose proof (filter_length emailVerified (all_users pages)) as H. lia.
Qed.

Lemma demo_serves : serves Demo.listUsers None Sample.pages.
Proof.
  apply serves_more; [reflexivity | reflexivity |].
  apply serves_last; reflexivity.
Qed.

Lemma stats_counts_all_pages_witness :
  exists r,
    stats Demo.listUsers 2 = Some r /\ status r = 200 /\
    number_of "totalUsers" r = Some 3 /\
    number_of "verifiedUsers" r = Some 2 /\
    number_of "unverifiedUsers" r = Some 1.
Proof.
  apply (stats_counts_all_pages Demo.listUsers Sample.pages 2 demo_serves).
  simpl. lia.
Defined.

Lemma count_users_rejects (listUsers : directory) cursor n :
  rejects_at listUsers cursor n ->
  forall fuel total verified,
    (n <= fuel)%nat ->
    exists msg, count_users listUsers fuel cursor total verified = Some (Throws msg).
Proof.
  induction 1 as [cursor msg Hcall | cursor page n Hcall Hmore Hrest IH];
    intros fuel total verified Hfuel;
    (destruct fuel as [|fuel]; [lia|]); cbn [count_users]; rewrite Hcall.
  - eauto.
  - destruct (fold_left tally (page_users page) (total, verified)) as [t v].
    rewrite Hmore. apply IH. lia.
Qed.

Lemma load_users_rejects (listUsers : directory) cursor n :
  rejects_at listUsers cursor n ->
  forall fuel users,
    (n <= fuel)%nat ->
    exists msg, load_users listUsers fuel cursor users = Some (Throws msg).
Proof.
  induction 1 as [cursor msg Hcall | cursor page n Hcall Hmore Hrest IH];
    intros fuel users Hfuel;
    (destruct fuel as [|fuel]; [lia|]); cbn [load_users]; rewrite Hcall.
  - eauto.
  - rewrite Hmore. apply IH. lia.
Qed.

Lemma load_users_serves (listUsers : directory) cursor pages :
  serves listUsers cursor pages ->
  forall fuel users,
    (length pages <= fuel)%nat ->
    load_users listUsers fuel cursor users
    = Some (Returns (users ++ all_users pages)%list).
Proof.
  induction 1 as [cursor page Hcall Hlast | cursor page pages Hcall Hmore Hrest IH];
    intros fuel users Hfuel;
    (destruct fuel as [|fuel]; [simpl in Hfuel; lia|]);
    cbn [load_users]; rewrite Hcall.
  - rewrite Hlast. unfold all_users. cbn [map concat]. rewrite app_nil_r. reflexivity.
  - rewrite Hmore. rewrite IH by (simpl in Hfuel; lia).
    unfold all_users. cbn [map concat]. rewrite app_assoc. reflexivity.
Qed.

(** ** GET /api/user-stats *)

Lemma equals_true (x : option string) (literal : string) :
  equals x literal = true -> x = Some literal.
Proof.
  destruct x as [s|]; simpl; [|discriminate].
  intros H. apply String.eqb_eq in H. congruence.
Qed.

Lemma iterations_length (n : nat) : length (iterations n) = n.
Proof.
  unfold iterations.
  rewrite length_combine, length_map, length_rev, !length_seq. lia.
Qed.

Lemma count_bounds (p : user_record -> bool) (l : list user_record) :
  0 <= count p l <= Z.of_nat (length l).
Proof.
  unfold count. pose proof (filter_length_le p l). lia.
Qed.

Lemma filter_filter_length {A} (p f : A -> bool) (l : list A) :
  (length (filter p (filter f l)) <= length (filter p l))%nat.
Proof.
  induction l as [|x l IH]; simpl; [lia|].
  destruct (f x), (p x) eqn:Hp; simpl; rewrite ?Hp; simpl; lia.
Qed.

Section UserStatsFacts.

Variable getMonth getFullYear getDate getHours : Z -> Z.
Variable setMonth setDate setHours : Z -> Z -> Z.
Variable endOfDay : Z -> Z.
Variable parseDate : string -> option Z.
Variable toDateString : Z -> string.
Variable monthShort monthDay weekdayShort : Z -> string.
Variable numberToString : Z -> string.
Variable clock : nat -> Z.

Local Abbreviation handler :=
  (user_stats_handler getMonth getFullYear getDate getHours setMonth setDate
     setHours endOfDay parseDate toDateString monthShort monthDay weekdayShort
     numberToString clock).
Local Abbreviation monthly :=
  (user_stats_monthly_handler getMonth getFullYear setMonth monthShort clock).
Local Abbreviation the_chart :=
  (chart getMonth getFullYear getDate getHours setMonth setDate setHours
     toDateString monthShort monthDay weekdayShort numberToString clock).
Local Abbreviation by_date := (date_filter endOfDay parseDate).

Lemma chart_length (q : query) (l : list user_record) :
  length (the_chart q l) = points (q_range q).
Proof.
  unfold chart, points.
  destruct (equals (q_range q) "12m") eqn:E1.
  { apply equals_true in E1. rewrite E1. cbn [equals String.eqb Ascii.eqb Bool.eqb].
    cbn [app]. unfold months. rewrite length_map. apply iterations_length. }
  destruct (equals (q_range q) "30d") eqn:E2.
  { apply equals_true in E2. rewrite E2. cbn [equals String.eqb Ascii.eqb Bool.eqb].
    cbn [app]. unfold days. rewrite length_map. apply iterations_length. }
  destruct (equals (q_range q) "7d") eqn:E3.
  { apply equals_true in E3. rewrite E3. cbn [equals String.eqb Ascii.eqb Bool.eqb].
    cbn [app]. unfold days. rewrite length_map. apply iterations_length. }
  destruct (equals (q_range q) "24h") eqn:E4; [|reflexivity].
  cbn [app]. unfold hours. rewrite length_map. apply iterations_length.
Qed.

Lemma chart_bounds (q : query) (l : list user_record) :
  Forall (fun point => 0 <= snd point <= Z.of_nat (length l)) (the_chart q l).
Proof.
  assert (Hm : Forall (fun point => 0 <= snd point <= Z.of_nat (length l))
                 (months getMonth getFullYear setMonth monthShort clock (clock 0) l)).
  { unfold months. apply Forall_map. apply Forall_forall.
    intros [k i] _. cbn [snd]. apply count_bounds. }
  assert (Hd : forall n label,
             Forall (fun point => 0 <= snd point <= Z.of_nat (length l))
               (days getDate setDate toDateString clock n label (clock 0) l)).
  { intros n label. unfold days. apply Forall_map. apply Forall_forall.
    intros [k i] _. cbn [snd]. apply count_bounds. }
  assert (Hh : Forall (fun point => 0 <= snd point <= Z.of_nat (length l))
                 (hours getHours setHours toDateString numberToString clock (clock 0) l)).
  { unfold hours. apply Forall_map. apply Forall_forall.
    intros [k i] _. cbn [snd]. apply count_bounds. }
  unfold chart.
  destruct (equals (q_range q) "12m"), (equals (q_range q) "30d"),
    (equals (q_range q) "7d"), (equals (q_range q) "24h");
    cbn [app]; repeat (apply Forall_app; split); auto.
Qed.

Lemma date_filter_length (q : query) (p : user_record -> bool) (l : list user_record) :
  (length (filter p (by_date q l)) <= length (filter p l))%nat.
Proof.
  unfold date_filter.
  destruct (Js.truthy_opt (q_from q) && Js.truthy_opt (q_to q)); [|lia].
  destruct (q_from q); [|lia]. destruct (q_to q); [|lia].
  apply filter_filter_length.
Qed.

Lemma type_filter_length (q : query) (l : list user_record) :
  (length (type_filter q l) <= length l)%nat.
Proof.
  unfold type_filter.
  pose proof (filter_length_le emailVerified l) as H1.
  pose proof (filter_length_le (fun u => negb (emailVerified u)) l) as H2.
  pose proof (filter_length_le (fun u => negb (emailVerified u))
                (filter emailVerified l)) as H3.
  destruct (equals (q_type q) "verified"), (equals (q_type q) "unverified"); lia.
Qed.

(** X18: when a call to the directory rejects, after any number of pages,
    stats answers 500 [Failed to fetch stats] and both revisions of
    user-stats answer 500 [Failed to load stats]; what was counted or loaded
    from the earlier pages is dropped. *)
Theorem directory_failure_is_500
    (listUsers : directory) (n fuel : nat) (q : query) :
  rejects_at listUsers None n ->
  (n <= fuel)%nat ->
  stats listUsers fuel
    = Some (json 500 [("msg", JString "Failed to fetch stats")]) /\
  handler listUsers fuel q
    = Some (Replied (json 500 [("msg", JString "Failed to load stats")])) /\
  monthly listUsers fuel
    = Some (Replied (json 500 [("msg", JString "Failed to load stats")])).
Proof.
  intros Hr Hfuel.
  destruct (count_users_rejects listUsers None n Hr fuel 0 0 Hfuel) as [msg Hc].
  destruct (load_users_rejects listUsers None n Hr fuel [] Hfuel) as [msg' Hl].
  unfold stats, user_stats_handler, user_stats_monthly_handler.
  rewrite Hc, Hl. auto.
Qed.

(** X19: on a directory that answers in finitely many pages user-stats
    answers with a chart of 12 points for range 12m, 30 for 30d, 7 for 7d,
    24 for 24h and none for any other or a missing range; every point counts
    between 0 and the number of principals of the directory. *)
Theorem chart_points
    (listUsers : directory) (pages : list list_users_result) (fuel : nat) (q : query) :
  serves listUsers None pages ->
  (length pages <= fuel)%nat ->
  exists data,
    handler listUsers fuel q = Some (Chart data) /\
    length data = points (q_range q) /\
    Forall (fun point => 0 <= snd point <= Z.of_nat (length (all_users pages))) data.
Proof.
  intros Hs Hfuel. unfold user_stats_handler.
  rewrite (load_users_serves listUsers None pages Hs fuel [] Hfuel). cbn [app].
  eexists. split; [reflexivity|]. split; [apply chart_length|].
  eapply Forall_impl; [|apply chart_bounds].
  intros point [H0 H1]. cbn beta in *. split; [exact H0|].
  pose proof (type_filter_length q (by_date q (all_users pages))) as Ht.
  pose proof (date_filter_length q (fun _ => true) (all_users pages)) as Hd.
  rewrite !filter_true in Hd. lia.
Qed.

(** X20: with type=verified no point of the chart counts more than the
    verified principals of the directory, and with type=unverified no point
    counts more than the unverified ones. *)
Theorem chart_type_filter
    (listUsers : directory) (pages : list list_users_result) (fuel : nat) (q : query)
    (data : list (string * Z)) :
  serves listUsers None pages ->
  (length pages <= fuel)%nat ->
  handler listUsers fuel q = Some (Chart data) ->
  (q_type q = Some "verified" ->
   Forall (fun point => snd point <= count_verified (all_users pages)) data) /\
  (q_type q = Some "unverified" ->
   Forall (fun point =>
             snd point <= count (fun u => negb (emailVerified u)) (all_users pages))
          data).
Proof.
  intros Hs Hfuel. unfold user_stats_handler.
  rewrite (load_users_serves listUsers None pages Hs fuel [] Hfuel). cbn [app].
  intros Hd. injection Hd as <-.
  split; intros Ht; (eapply Forall_impl; [|apply chart_bounds]);
    intros point [_ H1]; cbn beta in *;
    unfold type_filter in H1; rewrite Ht in H1;
    cbn [equals String.eqb Ascii.eqb Bool.eqb] in H1; cbn iota in H1.
  - pose proof (date_filter_length q emailVerified (all_users pages)).
    unfold count_verified. lia.
  - pose proof (date_filter_length q (fun u => negb (emailVerified u)) (all_users pages)).
    unfold count. lia.
Qed.

(** X21: the date filter applies only when both [from] and [to] are given
    and non-empty: otherwise the answer is the one for the query without
    them.  When both are given and one of them is not a date, every point of
    the chart is 0. *)
Theorem chart_date_filter
    (listUsers : directory) (fuel : nat) (q : query) :
  (Js.truthy_opt (q_from q) = false \/ Js.truthy_opt (q_to q) = false ->
   handler listUsers fuel q
   = handler listUsers fuel
       {| q_range := q_range q; q_from := None; q_to := None; q_type := q_type q |}) /\
  (forall from to data,
     q_from q = Some from -> q_to q = Some to -> from <> "" -> to <> "" ->
     parseDate from = None \/ parseDate to = None ->
     handler listUsers fuel q = Some (Chart data) ->
     Forall (fun point => snd point = 0) data).
Proof.
  split.
  - intros Hmissing. unfold user_stats_handler.
    destruct (load_users listUsers fuel None []) as [[users|msg]|]; try reflexivity.
    assert (Hf : by_date q users = users).
    { unfold date_filter.
      destruct Hmissing as [-> | ->]; rewrite ?andb_false_r; reflexivity. }
    rewrite Hf. reflexivity.
  - intros from to data Hfrom Hto Hf Ht Hbad. unfold user_stats_handler.
    destruct (load_users listUsers fuel None []) as [[users|msg]|]; try discriminate.
    intros Hd. injection Hd as <-.
    assert (He : type_filter q (by_date q users) = []).
    { assert (Hn : by_date q users = []).
      { unfold date_filter. rewrite Hfrom, Hto. cbn [Js.truthy_opt].
        apply truthy_true in Hf, Ht. rewrite Hf, Ht. cbn [andb].
        assert (Hr : forall u,
                   in_range (parseDate from) (option_map endOfDay (parseDate to)) u = false).
        { intros u. unfold in_range.
          destruct Hbad as [-> | ->]; [reflexivity|].
          destruct (parseDate from); reflexivity. }
        induction users as [|u users IH]; [reflexivity|].
        cbn [filter]. rewrite Hr. exact IH. }
      rewrite Hn. unfold type_filter.
      destruct (equals (q_type q) "verified"), (equals (q_type q) "unverified");
        reflexivity. }
    rewrite He.
    eapply Forall_impl; [|apply chart_bounds].
    intros point [H0 H1]. cbn [length] in H1. cbn beta. lia.
Qed.

(** The user-stats of the last revision answers, to every request, what
    the range-bucketed revision answers to range=12m without filters. *)
Theorem monthly_is_range_12m (listUsers : directory) (fuel : nat) :
  monthly listUsers fuel
  = handler listUsers fuel
      {| q_range := Some "12m"; q_from := None; q_to := None; q_type := None |}.
Proof.
  unfold user_stats_monthly_handler, user_stats_handler.
  destruct (load_users listUsers fuel None []) as [[users|msg]|]; reflexivity.
Qed.

End UserStatsFacts.

Lemma sample_rejects : rejects_at Sample.failing None 2.
Proof.
  eapply rejects_later; [reflexivity | reflexivity |].
  eapply rejects_now. reflexivity.
Qed.

Lemma directory_failure_is_500_witness :
  stats Sample.failing 2 = Some (json 500 [("msg", JString "Failed to fetch stats")]) /\
  Sample.user_stats Sample.failing 2 (Sample.query_of (Some "7d") None)
  = Some (Replied (json 500 [("msg", JString "Failed to load stats")])).
Proof.
  destruct (directory_failure_is_500 Sample.getMonth Sample.getFullYear Sample.getDate
              Sample.getHours Sample.setMonth Sample.setDate Sample.setHours
              Sample.endOfDay Sample.parseDate Sample.label Sample.label Sample.label
              Sample.label Sample.label Sample.clock
              Sample.failing 2 2 (Sample.query_of (Some "7d") None)
              sample_rejects (le_n 2)) as (Hs & Hh & _).
  split; [exact Hs | exact Hh].
Defined.

Lemma chart_points_witness :
  exists data,
    Sample.user_stats Demo.listUsers 2 (Sample.query_of (Some "7d") None)
      = Some (Chart data) /\
    length data = 7%nat /\
    Forall (fun point => 0 <= snd point <= 3) data.
Proof.
  apply (chart_points Sample.getMonth Sample.getFullYear Sample.getDate
           Sample.getHours Sample.setMonth Sample.setDate Sample.setHours
           Sample.endOfDay Sample.parseDate Sample.label Sample.label Sample.label
           Sample.label Sample.label Sample.clock
           Demo.listUsers Sample.pages 2 (Sample.query_of (Some "7d") None)
           demo_serves).
  simpl. lia.
Defined.

Lemma chart_type_filter_witness :
  exists data,
    Sample.user_stats Demo.listUsers 2 (Sample.query_of (Some "24h") (Some "verified"))
      = Some (Chart data) /\
    Forall (fun point => snd point <= 2) data.
Proof.
  eexists. split; [reflexivity|].
  apply (chart_type_filter Sample.getMonth Sample.getFullYear Sample.getDate
           Sample.getHours Sample.setMonth Sample.setDate Sample.setHours
           Sample.endOfDay Sample.parseDate Sample.label Sample.label Sample.label
           Sample.label Sample.label Sample.clock
           Demo.listUsers Sample.pages 2 (Sample.query_of (Some "24h") (Some "verified"))).
  - exact demo_serves.
  - simpl. lia.
  - reflexivity.
  - reflexivity.
Defined.

Lemma chart_date_filter_witness :
  Sample.user_stats Demo.listUsers 2
    {| q_range := Some "7d"; q_from := Some "day0"; q_to := None; q_type := None |}
  = Sample.user_stats Demo.listUsers 2 (Sample.query_of (Some "7d") None) /\
  exists data,
    Sample.user_stats Demo.listUsers 2
      {| q_range := Some "7d"; q_from := Some "day0"; q_to := Some "soon";
         q_type := None |}
    = Some (Chart data) /\
    Forall (fun point => snd point = 0) data.
Proof.
  split.
  - apply (chart_date_filter Sample.getMonth Sample.getFullYear Sample.getDate
             Sample.getHours Sample.setMonth Sample.setDate Sample.setHours
             Sample.endOfDay Sample.parseDate Sample.label Sample.label Sample.label
             Sample.label Sample.label Sample.clock Demo.listUsers 2
             {| q_range := Some "7d"; q_from := Some "day0"; q_to := None;
                q_type := None |}).
    right. reflexivity.
  - eexists. split; [reflexivity|].
    destruct (chart_date_filter Sample.getMonth Sample.getFullYear Sample.getDate
                Sample.getHours Sample.setMonth Sample.setDate Sample.setHours
                Sample.endOfDay Sample.parseDate Sample.label Sample.label Sample.label
                Sample.label Sample.label Sample.clock Demo.listUsers 2
                {| q_range := Some "7d"; q_from := Some "day0"; q_to := Some "soon";
                   q_type := None |}) as [_ H].
    apply (H "day0" "soon"); try reflexivity; try discriminate.
    right. reflexivity.
Defined.

(** ** Start-up, continued *)

(** X22: the process ends with [FIREBASE_SERVICE_ACCOUNT is missing] exactly
    when that variable is unset or empty, whatever else the environment
    holds; when the process listens, it listens on [PORT] if that is set and
    not empty and on 5000 otherwise. *)
Theorem startup_outcomes (service_account_ok : string -> bool) (env : process_env) :
  (Js.truthy_opt (FIREBASE_SERVICE_ACCOUNT env) = false ->
   server service_account_ok env = Exited "FIREBASE_SERVICE_ACCOUNT is missing") /\
  (forall text,
     FIREBASE_SERVICE_ACCOUNT env = Some text -> text <> "" ->
     service_account_ok text = false ->
     exists msg, server service_account_ok env = Exited msg) /\
  (forall port,
     server service_account_ok env = Listening port ->
     (exists text, FIREBASE_SERVICE_ACCOUNT env = Some text /\ text <> "" /\
                   service_account_ok text = true) /\
     (PORT env = Some port /\ port <> "" \/
      port = "5000" /\ Js.truthy_opt (PORT env) = false)).
Proof.
  unfold server, firebase. split; [|split].
  - intros ->. reflexivity.
  - intros text Hsa Hne Hbad. rewrite Hsa. cbn [Js.truthy_opt].
    apply truthy_true in Hne. rewrite Hne, Hbad. cbn. eauto.
  - intros port.
    destruct (FIREBASE_SERVICE_ACCOUNT env) as [text|]; cbn [Js.truthy_opt negb];
      [|discriminate].
    destruct (Js.truthy text) eqn:Ht; cbn [negb]; [|discriminate].
    destruct (service_account_ok text) eqn:Hok; [|discriminate].
    intros H. injection H as <-. split.
    + exists text. apply truthy_true in Ht. auto.
    + destruct (PORT env) as [p|]; cbn [Js.truthy_opt]; [|auto].
      destruct (Js.truthy p) eqn:Hp; [|auto].
      left. apply truthy_true in Hp. auto.
Qed.

Lemma startup_outcomes_witness :
  server (fun _ => true)
    {| FIREBASE_SERVICE_ACCOUNT := Some ""; JWT_SECRET := Some "s3cret";
       PORT := Some "8080" |}
  = Exited "FIREBASE_SERVICE_ACCOUNT is missing".
Proof.
  apply (startup_outcomes (fun _ => true)
           {| FIREBASE_SERVICE_ACCOUNT := Some ""; JWT_SECRET := Some "s3cret";
              PORT := Some "8080" |}).
  reflexivity.
Defined.

(** ** Refresh on every request *)

(** X23: refresh has no try/catch, yet nothing escapes it: for every
    request it answers with 200, 401 or 403 and sets no cookie, and it
    answers 200 exactly when the cookie holds a token that verifies. *)
Theorem refresh_answers
    (hmac : string -> string -> Jwt.claims -> string)
    (env : process_env) (now : Z) (req : request) :
  exists r,
    refresh hmac env now req = Returns r /\
    (status r = 200 \/ status r = 401 \/ status r = 403) /\
    cookies_set r = [] /\
    (status r = 200 <->
     exists token user,
       refreshToken req = Some token /\
       verifyToken hmac env now token = Jwt.Decoded user).
Proof.
  destruct (refreshToken req) as [token|] eqn:Hc.
  - destruct (Jwt.verify hmac token (JWT_SECRET env) now) as [user|e] eqn:Hv.
    + destruct (refresh_success hmac env now req token user Hc Hv)
        as (key & _ & _ & Hr).
      eexists. split; [exact Hr|]. split; [left; reflexivity|].
      split; [reflexivity|]. split; [|reflexivity].
      intros _. exists token, user. auto.
    + unfold refresh. rewrite Hc, Hv.
      destruct (Jwt.is_empty token); eexists; (split; [reflexivity|]);
        (split; [auto|]); (split; [reflexivity|]);
        (split; [discriminate|]);
        intros (t & u & Et & Hu); injection Et as <-;
        unfold verifyToken in Hu; congruence.
  - unfold refresh. rewrite Hc. eexists. split; [reflexivity|].
    split; [auto|]. split; [reflexivity|]. split; [discriminate|].
    intros (t & u & Et & _). discriminate.
Qed.

Lemma refresh_answers_witness :
  exists r,
    refresh Demo.hmac Demo.env_no_secret 0 (Demo.with_cookie Demo.alice_refresh "a@x.com")
      = Returns r /\
    status r <> 200.
Proof.
  destruct (refresh_answers Demo.hmac Demo.env_no_secret 0
              (Demo.with_cookie Demo.alice_refresh "a@x.com"))
    as (r & Hr & _ & _ & Hiff).
  exists r. split; [exact Hr|].
  intros H200. apply Hiff in H200 as (token & user & Hc & Hv).
  injection Hc as <-. discriminate Hv.
Defined.

Lemma login_answers_witness :
  exists r,
    login Demo.hmac Demo.bcrypt_compare Demo.env 0 (Demo.post "a@x.com" "pw2") Demo.db
      = (Returns r, Demo.db) /\
    cookies_set r = [] /\ accessToken_of r = None.
Proof.
  destruct (login_answers Demo.hmac Demo.bcrypt_compare Demo.env 0
              (Demo.post "a@x.com" "pw2") Demo.db) as (r & Hl & _ & Hno & _).
  exists r. split; [exact Hl|].
  apply Hno. vm_compute in Hl. injection Hl as <-. discriminate.
Defined.

Lemma login_fails_iff_witness :
  login Demo.hmac Demo.bcrypt_compare Demo.env_no_secret 0
    (Demo.post "a@x.com" "pw1") Demo.db
  = (Returns (json 500 [("msg", JString "Login failed")]), Demo.db).
Proof.
  apply (login_fails_iff Demo.hmac Demo.bcrypt_compare Demo.env_no_secret 0
           (Demo.post "a@x.com" "pw1") Demo.db).
  right. right. exists "a@x.com", "a@x.com", Demo.alice, [].
  split; [reflexivity|]. split; [reflexivity|].
  right. exists "pw1". split; [reflexivity|]. split; reflexivity.
Defined.

Lemma register_answers_witness :
  exists r db',
    register Demo.bcrypt_hash 0 "salt" (Demo.post "a@x.com" "pw1") Demo.db
      = (Returns r, db') /\
    db' = Demo.db.
Proof.
  destruct (register_answers Demo.bcrypt_hash 0 "salt" (Demo.post "a@x.com" "pw1") Demo.db)
    as (r & db' & Hr & _ & _ & _ & _ & Hsame & _).
  exists r, db'. split; [exact Hr|].
  apply Hsame. vm_compute in Hr. injection Hr as <- _. discriminate.
Defined.
